(** * Alert delivery and reminder engine

    A shallow embedding of the alert state engine
    (src/services/AlertStateManager.ts) and of the delivery orchestrator
    (src/services/NotificationService.ts), with the record store the
    orchestrator talks to (supabase/migrations/20250924111150_mellow_thunder.sql).

    Conventions of the embedding:
    - a JavaScript [Date] is the integer [getTime()] gives, milliseconds since
      the epoch; an optional field ([startTime?: Date]) is an [option];
    - every operation receives the reading [now] of the clock ([new Date()],
      [Date.now()], [datetime('now')]) as an argument: one operation is
      evaluated at one instant;
    - the store is explicit state: the tables [alerts] and [users] are lists of
      rows, [notification_deliveries] is a list that only grows at its end, and
      [user_alert_preferences], which carries [UNIQUE(user_id, alert_id)], is a
      finite map from that pair to the row; the surrogate [id] columns (fresh
      UUIDs that no decision reads) are left out;
    - the records [AlertRow] and [UserAlertPreference] of the store hold the
      columns of a row. [DatabaseConnection.get] and [query] return rows as
      SQLite gives them, keyed by column name, and the orchestrator passes
      them on under the interface types without mapping them: what the engine
      then reads under the camelCase names is [rawAlert] and
      [rawPreference]. [AlertService.getAlertById] maps its row
      ([mapDatabaseRowToAlert]) and returns the columns;
    - a query lists its rows in table order; no query of the orchestrator has
      an [ORDER BY], and no statement below depends on the order except
      where it says so;
    - of the constraints of the schema, the model keeps
      [CHECK (channel IN ...)] of [notification_deliveries], which decides
      whether [recordDelivery] succeeds, and the constraints of [alerts]
      that a request can break: the primary key, the [CHECK] of
      [visibility_type] and the foreign key [created_by]. The foreign keys
      of the other tables are not modelled: the ids written there are ids
      of rows the caller has just read. *)

From Stdlib Require Import ZArith List String Bool Lia.
From stdpp Require Import base option list gmap strings fin_maps.
Import ListNotations.

Local Open Scope string_scope.
Local Open Scope list_scope.
Local Open Scope Z_scope.

(** ** Domain types (src/types/index.ts) *)

Definition Date := Z.

Inductive UserRole := ADMIN | USER.

Inductive AlertSeverity := INFO | WARNING | CRITICAL.

Inductive NotificationChannel := IN_APP | EMAIL | SMS.

Inductive DeliveryStatus := PENDING | DELIVERED | FAILED | READ.

Inductive AlertState := ACTIVE | SNOOZED | EXPIRED.

Record User := mkUser {
  user_id : string;
  user_name : string;
  user_email : string;
  teamId : option string;
  role : UserRole
}.

(** [visibilityType] is kept as the string the [switch] of
    [getEligibleUsers] compares, so that its [default] branch can be reached. *)
Record Alert := mkAlert {
  alert_id : string;
  title : string;
  message : string;
  severity : AlertSeverity;
  visibilityType : string;
  visibilityTarget : option string;
  startTime : option Date;
  expiryTime : option Date;
  reminderEnabled : bool;
  createdBy : string
}.

Record UserAlertPreference := mkPreference {
  pref_userId : string;
  pref_alertId : string;
  isRead : bool;
  snoozedUntil : option Date;
  updatedAt : Date
}.

(** [metadata?: Record<string, unknown>]: the entries of the object. *)
Record DeliveryResult := mkResult {
  success : bool;
  error : option string;
  metadata : option (list (string * string))
}.

Record Notification := mkNotification {
  notif_alertId : string;
  notif_title : string;
  notif_message : string;
  notif_severity : AlertSeverity;
  notif_createdAt : Date
}.

(** The string values of the enum [NotificationChannel]. *)
Definition NotificationChannel_value (c : NotificationChannel) : string :=
  match c with
  | IN_APP => "in_app"
  | EMAIL => "email"
  | SMS => "sms"
  end.

(** [channel] is the string [channel.getName() as NotificationChannel]: the
    cast does not check that it is a value of the enum. [deliv_metadata] is
    the object whose [JSON.stringify] text the column holds. *)
Record NotificationDelivery := mkDelivery {
  deliv_alertId : string;
  deliv_userId : string;
  channel : string;
  deliveredAt : Date;
  status : DeliveryStatus;
  deliv_metadata : option (list (string * string))
}.

(** The capability set of a channel: [getName(): string] and [deliver]. The
    orchestrator calls nothing else of a channel. *)
Record NotificationChannelStrategy := mkChannel {
  getName : string;
  deliver : Notification -> User -> DeliveryResult
}.

(** ** Alert state engine (src/services/AlertStateManager.ts) *)

(** [d && now < d] and the like on an optional date: absent is falsy. *)
Definition set_and (d : option Date) (test : Date -> bool) : bool :=
  match d with
  | Some t => test t
  | None => false
  end.

Record IAlertStateHandler := mkHandler {
  canDeliver : Date -> Alert -> User -> bool;
  getNextReminderTime : Date -> Z -> Alert -> option Date -> option Date;
  shouldCreateReminder : Date -> Alert -> UserAlertPreference -> bool
}.

Module ActiveAlertState.

Definition canDeliver (now : Date) (alert : Alert) (user : User) : bool :=
  if set_and (startTime alert) (fun st => now <? st) then false
  else if set_and (expiryTime alert) (fun e => now >? e) then false
  else true.

(** [reminderInterval] is [parseInt(process.env.REMINDER_INTERVAL_MINUTES || '120')]. *)
Definition getNextReminderTime (now : Date) (reminderInterval : Z)
    (alert : Alert) (lastDelivery : option Date) : option Date :=
  if negb (reminderEnabled alert) then None
  else
    let nextReminder := default now lastDelivery + reminderInterval * 60 * 1000 in
    if set_and (expiryTime alert) (fun e => nextReminder >? e) then None
    else Some nextReminder.

Definition shouldCreateReminder (now : Date) (alert : Alert)
    (preference : UserAlertPreference) : bool :=
  reminderEnabled alert
  && negb (isRead preference)
  && match snoozedUntil preference with
     | None => true
     | Some su => su <? now
     end.

Definition handler : IAlertStateHandler :=
  mkHandler canDeliver getNextReminderTime shouldCreateReminder.

End ActiveAlertState.

Module SnoozedAlertState.

Definition handler : IAlertStateHandler :=
  mkHandler (fun _ _ _ => false) (fun _ _ _ _ => None) (fun _ _ _ => false).

End SnoozedAlertState.

Module ExpiredAlertState.

Definition handler : IAlertStateHandler :=
  mkHandler (fun _ _ _ => false) (fun _ _ _ _ => None) (fun _ _ _ => false).

End ExpiredAlertState.

Module AlertStateManager.

Definition getState (now : Date) (alert : Alert)
    (preference : option UserAlertPreference) : AlertState :=
  if set_and (expiryTime alert) (fun e => now >? e) then EXPIRED
  else if set_and (preference ≫= snoozedUntil) (fun su => su >? now) then SNOOZED
  else if set_and (startTime alert) (fun st => now <? st) then ACTIVE
  else ACTIVE.

(** The handler table has an entry for each of the three states, so the
    [throw] of the lookup is never taken. *)
Definition getStateHandler (state : AlertState) : IAlertStateHandler :=
  match state with
  | ACTIVE => ActiveAlertState.handler
  | SNOOZED => SnoozedAlertState.handler
  | EXPIRED => ExpiredAlertState.handler
  end.

Definition canDeliver (now : Date) (alert : Alert) (user : User)
    (preference : option UserAlertPreference) : bool :=
  let state := getState now alert preference in
  let handler := getStateHandler state in
  handler.(canDeliver) now alert user.

Definition getNextReminderTime (now : Date) (reminderInterval : Z)
    (alert : Alert) (preference : option UserAlertPreference)
    (lastDelivery : option Date) : option Date :=
  let state := getState now alert preference in
  let handler := getStateHandler state in
  handler.(getNextReminderTime) now reminderInterval alert lastDelivery.

Definition shouldCreateReminder (now : Date) (alert : Alert)
    (preference : UserAlertPreference) : bool :=
  let state := getState now alert (Some preference) in
  let handler := getStateHandler state in
  handler.(shouldCreateReminder) now alert preference.

End AlertStateManager.

(** ** The record store (the SQLite schema) *)

(** A row of [alerts]: the columns that [mapDatabaseRowToAlert] turns into
    the fields of the [Alert] interface, and [archived_at]. *)
Record AlertRow := mkAlertRow {
  row_alert :> Alert;
  archived_at : option Date
}.

(** A row of [alerts] read as an [Alert] without being mapped
    ([db.get<Alert>], [db.query<Alert>]): its keys are the column names, so
    [id], [title], [message] and [severity] are there and [visibilityType],
    [visibilityTarget], [startTime], [expiryTime], [reminderEnabled] and
    [createdBy] are [undefined]. An [undefined] optional field is absent, an
    [undefined] flag is falsy, and an [undefined] string equals none of the
    strings the code compares it with, as the empty string does. *)
Definition rawAlert (row : AlertRow) : Alert :=
  mkAlert (alert_id row) (title row) (message row) (severity row)
    "" None None None false "".

(** A row of [user_alert_preferences] read as a [UserAlertPreference] without
    being mapped: its keys are [id], [user_id], [alert_id], [is_read],
    [snoozed_until] and [updated_at], so every field of the interface but
    [id] is [undefined]. No code reads [userId], [alertId] or [updatedAt] of
    such an object. *)
Definition rawPreference (row : UserAlertPreference) : UserAlertPreference :=
  mkPreference "" "" false None 0.

Record Store := mkStore {
  alerts : list AlertRow;
  users : list User;
  user_alert_preferences : gmap (string * string) UserAlertPreference;
  notification_deliveries : list NotificationDelivery
}.

(** SQL [x = y] in a [WHERE] clause: a comparison with NULL is never true. *)
Definition sql_eq (x y : option string) : bool :=
  match x, y with
  | Some a, Some b => String.eqb a b
  | _, _ => false
  end.

(** SQL [x IS NULL]. *)
Definition is_null {A : Type} (x : option A) : bool :=
  match x with
  | None => true
  | Some _ => false
  end.

Definition UserRole_eqb (r1 r2 : UserRole) : bool :=
  match r1, r2 with
  | ADMIN, ADMIN | USER, USER => true
  | _, _ => false
  end.

(** [CHECK (channel IN ('in_app', 'email', 'sms'))] of
    [notification_deliveries]: the values of the enum [NotificationChannel]. *)
Definition channel_check (name : string) : bool :=
  existsb (String.eqb name) (NotificationChannel_value <$> [IN_APP; EMAIL; SMS]).

(** The date of an instant, as days since the epoch: what the first ten
    characters of its text [YYYY-MM-DD...] order by, in both formats the
    store holds. *)
Definition utcDate (t : Date) : Z := t / 86400000.

(** The rows of [notification_deliveries] of one (alert, user) pair. *)
Definition deliveries_of (alertId userId : string)
    (ds : list NotificationDelivery) : list NotificationDelivery :=
  List.filter
    (fun d => String.eqb (deliv_alertId d) alertId && String.eqb (deliv_userId d) userId)
    ds.

(** [ORDER BY delivered_at DESC LIMIT 1]: the greatest [delivered_at]. *)
Fixpoint latest (ds : list NotificationDelivery) : option Date :=
  match ds with
  | [] => None
  | d :: ds' =>
      match latest ds' with
      | None => Some (deliveredAt d)
      | Some t => Some (Z.max (deliveredAt d) t)
      end
  end.

(** ** Delivery orchestrator (src/services/NotificationService.ts) *)

Inductive ServiceError := AlertNotFound (alertId : string).

Module NotificationService.
Section WithConfiguration.

(** [this.enabledChannels], fixed by the constructor. *)
Variable enabledChannels : list NotificationChannelStrategy.

(** [process.env.REMINDER_INTERVAL_MINUTES], in minutes. *)
Variable REMINDER_INTERVAL_MINUTES : Z.

(** The row is returned as it is ([db.get<Alert>]). *)
Definition getAlert (s : Store) (alertId : string) : option Alert :=
  rawAlert <$>
    List.find (fun a : AlertRow => String.eqb (alert_id a) alertId
                                   && is_null (archived_at a))
              (alerts s).

(** The [switch] reads [visibilityType] and [visibilityTarget] of the object
    it is given. *)
Definition getEligibleUsers (s : Store) (alert : Alert) : list User :=
  if String.eqb (visibilityType alert) "organization" then
    List.filter (fun u => existsb (UserRole_eqb (role u)) [ADMIN; USER]) (users s)
  else if String.eqb (visibilityType alert) "team" then
    List.filter (fun u => sql_eq (teamId u) (visibilityTarget alert)) (users s)
  else if String.eqb (visibilityType alert) "user" then
    List.filter (fun u => sql_eq (Some (user_id u)) (visibilityTarget alert)) (users s)
  else [].

(** The bound parameter and the stored [start_time] and [expiry_time] are
    [toISOString()] texts, whose order is the order of the instants. The rows
    are returned as they are ([db.query<Alert>]). *)
Definition getActiveAlertsWithReminders (now : Date) (s : Store) : list Alert :=
  rawAlert <$>
    List.filter
      (fun a : AlertRow =>
         reminderEnabled a
         && is_null (archived_at a)
         && match startTime a with None => true | Some st => st <=? now end
         && match expiryTime a with None => true | Some e => e >? now end)
      (alerts s).

(** The visibility disjunction of the join in [getUsersNeedingReminders]. *)
Definition visible_to (a : Alert) (u : User) : bool :=
  String.eqb (visibilityType a) "organization"
  || (String.eqb (visibilityType a) "team" && sql_eq (teamId u) (visibilityTarget a))
  || (String.eqb (visibilityType a) "user" && sql_eq (Some (user_id u)) (visibilityTarget a)).

(** The conditions on the left-joined preference row; without a row its
    columns are NULL and both conditions hold. [p.snoozed_until <
    datetime('now')] compares two texts: [snoozed_until] is the
    [toISOString()] text [snoozeAlert] stored, [YYYY-MM-DDTHH:MM:SS.sssZ], and
    [datetime('now')] is [YYYY-MM-DD HH:MM:SS]. They differ within the first
    ten characters when the dates differ, and otherwise at the eleventh,
    where [T] is greater than the space: the comparison holds exactly when
    the date of [snoozed_until] is before the date of [now]. *)
Definition unread_unsnoozed (now : Date) (p : option UserAlertPreference) : bool :=
  match p with
  | None => true
  | Some p =>
      negb (isRead p)
      && match snoozedUntil p with
         | None => true
         | Some su => utcDate su <? utcDate now
         end
  end.

(** [SELECT DISTINCT u.*] over [users JOIN alerts ON 1=1 LEFT JOIN
    user_alert_preferences]: a user row is returned once, when some alert
    row with the given id passes the [WHERE] clause with it. *)
Definition getUsersNeedingReminders (now : Date) (s : Store) (alertId : string)
    : list User :=
  List.filter
    (fun u =>
       existsb (fun a : AlertRow => String.eqb (alert_id a) alertId && visible_to a u)
               (alerts s)
       && unread_unsnoozed now (user_alert_preferences s !! (user_id u, alertId)))
    (users s).

(** The row of the pair, with its columns. *)
Definition getUserAlertPreference (s : Store) (userId alertId : string)
    : option UserAlertPreference :=
  user_alert_preferences s !! (userId, alertId).

(** [INSERT OR IGNORE ... VALUES (?, ?, ?, 0)] *)
Definition ensureUserAlertPreference (now : Date) (s : Store)
    (userId alertId : string) : Store :=
  match user_alert_preferences s !! (userId, alertId) with
  | Some _ => s
  | None =>
      mkStore (alerts s) (users s)
        (<[(userId, alertId) := mkPreference userId alertId false None now]>
           (user_alert_preferences s))
        (notification_deliveries s)
  end.

(** [INSERT INTO notification_deliveries]: the statement is rejected, and the
    promise with it, when [channel] fails the CHECK of the column. The status
    is [delivered] or [failed], which the CHECK of [status] accepts. *)
Definition recordDelivery (s : Store) (delivery : NotificationDelivery) : option Store :=
  if channel_check (channel delivery) then
    Some (mkStore (alerts s) (users s) (user_alert_preferences s)
            (notification_deliveries s ++ [delivery]))
  else None.

Definition getLastDeliveryTime (s : Store) (alertId userId : string) : option Date :=
  latest (deliveries_of alertId userId (notification_deliveries s)).

(** [INSERT OR REPLACE] of the columns (id, user_id, alert_id, is_read,
    updated_at): the row of the pair is replaced, [snoozed_until] takes its
    default NULL. *)
Definition markAlertAsRead (now : Date) (s : Store) (userId alertId : string) : Store :=
  mkStore (alerts s) (users s)
    (<[(userId, alertId) := mkPreference userId alertId true None now]>
       (user_alert_preferences s))
    (notification_deliveries s).

(** [INSERT OR REPLACE] with [is_read] taken from the row being replaced,
    0 when there is none. *)
Definition snoozeAlert (now : Date) (s : Store) (userId alertId : string)
    (hoursToSnooze : Z) : Store :=
  let snoozedUntil := now + hoursToSnooze * 60 * 60 * 1000 in
  let is_read :=
    match user_alert_preferences s !! (userId, alertId) with
    | Some p => isRead p
    | None => false
    end in
  mkStore (alerts s) (users s)
    (<[(userId, alertId) := mkPreference userId alertId is_read (Some snoozedUntil) now]>
       (user_alert_preferences s))
    (notification_deliveries s).

(** The channel loop of [deliverToUser]. A rejected [recordDelivery] leaves
    the loop for the [catch] of [deliverToUser]: the rows recorded before it
    stay, and the flag tells whether the loop ran to its end. *)
Fixpoint deliverVia (now : Date) (alert : Alert) (user : User)
    (notification : Notification) (channels : list NotificationChannelStrategy)
    (s : Store) : Store * bool :=
  match channels with
  | [] => (s, true)
  | channel :: rest =>
      let result := deliver channel notification user in
      match recordDelivery s
              (mkDelivery (alert_id alert) (user_id user) (getName channel) now
                 (if success result then DELIVERED else FAILED)
                 (metadata result)) with
      | Some s' => deliverVia now alert user notification rest s'
      | None => (s, false)
      end
  end.

(** The engine is handed the preference as the query returned it. The
    [catch] logs the rejection and returns, so
    [ensureUserAlertPreference] runs only after a loop that ran to its end. *)
Definition deliverToUser (now : Date) (s : Store) (alert : Alert) (user : User) : Store :=
  let preference :=
    rawPreference <$> getUserAlertPreference s (user_id user) (alert_id alert) in
  if negb (AlertStateManager.canDeliver now alert user preference) then s
  else
    let notification :=
      mkNotification (alert_id alert) (title alert) (message alert) (severity alert) now in
    let '(s', completed) := deliverVia now alert user notification enabledChannels s in
    if completed then ensureUserAlertPreference now s' (user_id user) (alert_id alert)
    else s'.

Definition deliverAlert (now : Date) (s : Store) (alertId : string)
    : ServiceError + Store :=
  match getAlert s alertId with
  | None => inl (AlertNotFound alertId)
  | Some alert =>
      let eligibleUsers := getEligibleUsers s alert in
      inr (fold_left (fun s user => deliverToUser now s alert user) eligibleUsers s)
  end.

(** The body of the loop of [processAlertReminders]; the engine is handed
    the preference as the query returned it. *)
Definition remindUser (now : Date) (alert : Alert) (s : Store) (user : User) : Store :=
  match rawPreference <$> getUserAlertPreference s (user_id user) (alert_id alert) with
  | Some preference =>
      if AlertStateManager.shouldCreateReminder now alert preference then
        let lastDelivery := getLastDeliveryTime s (alert_id alert) (user_id user) in
        match AlertStateManager.getNextReminderTime now REMINDER_INTERVAL_MINUTES
                alert (Some preference) lastDelivery with
        | Some nextReminderTime =>
            if nextReminderTime <=? now then deliverToUser now s alert user else s
        | None => s
        end
      else s
  | None => s
  end.

Definition processAlertReminders (now : Date) (s : Store) (alert : Alert) : Store :=
  let usersNeedingReminders := getUsersNeedingReminders now s (alert_id alert) in
  fold_left (remindUser now alert) usersNeedingReminders s.

Definition processReminders (now : Date) (s : Store) : Store :=
  let activeAlerts := getActiveAlertsWithReminders now s in
  fold_left (processAlertReminders now) activeAlerts s.

End WithConfiguration.
End NotificationService.

(** * Vocabulary of the statements *)

(** The rows the channel loop of [deliverToUser] records for the channels
    it gets through, in their order. *)
Definition attempts (enabledChannels : list NotificationChannelStrategy)
    (now : Date) (alert : Alert) (user : User) : list NotificationDelivery :=
  let notification :=
    mkNotification (alert_id alert) (title alert) (message alert) (severity alert) now in
  (fun channel =>
     let result := deliver channel notification user in
     mkDelivery (alert_id alert) (user_id user) (getName channel) now
       (if success result then DELIVERED else FAILED) (metadata result))
  <$> enabledChannels.

(** The recipient has read the alert: the stored row has [isRead = true]. *)
Definition readBy (s : Store) (userId alertId : string) : Prop :=
  exists p, NotificationService.getUserAlertPreference s userId alertId = Some p
            /\ isRead p = true.

(** One call of an operation of the service that can write
    [user_alert_preferences]. *)
Inductive preference_step : Store -> Store -> Prop :=
  | step_ensure now s userId alertId :
      preference_step s (NotificationService.ensureUserAlertPreference now s userId alertId)
  | step_deliverToUser chs now s alert user :
      preference_step s (NotificationService.deliverToUser chs now s alert user)
  | step_deliverAlert chs now s alertId s' :
      NotificationService.deliverAlert chs now s alertId = inr s' ->
      preference_step s s'
  | step_processReminders chs interval now s :
      preference_step s (NotificationService.processReminders chs interval now s)
  | step_markAlertAsRead now s userId alertId :
      preference_step s (NotificationService.markAlertAsRead now s userId alertId)
  | step_snoozeAlert now s userId alertId hours :
      preference_step s (NotificationService.snoozeAlert now s userId alertId hours).

(** What a reminder pass can read and write about one (user, alert) pair:
    the two tables it never writes, the pair's preference row and the pair's
    delivery rows. *)
Definition view (userId alertId : string) (s : Store) :
    list AlertRow * list User * option UserAlertPreference * list NotificationDelivery :=
  (alerts s, users s,
   user_alert_preferences s !! (userId, alertId),
   deliveries_of alertId userId (notification_deliveries s)).

(** The channels the loop of [deliverToUser] gets through: the ones before
    the first whose name the CHECK of [channel] rejects. *)
Fixpoint accepted (channels : list NotificationChannelStrategy)
    : list NotificationChannelStrategy :=
  match channels with
  | [] => []
  | channel :: rest =>
      if channel_check (getName channel) then channel :: accepted rest else []
  end.

(** Successive [processReminders] passes, one per instant of [ticks], each on
    the store the previous one left: what the timer of [ReminderScheduler]
    runs. *)
Definition scheduler_ticks (enabledChannels : list NotificationChannelStrategy)
    (REMINDER_INTERVAL_MINUTES : Z) (ticks : list Date) (s : Store) : Store :=
  fold_left
    (fun s now =>
       NotificationService.processReminders enabledChannels REMINDER_INTERVAL_MINUTES now s)
    ticks s.

(** * The callers of the orchestrator *)

(** ** Alert service (src/services/AlertService.ts) *)

(** [reminderEnabled?: boolean] is optional in a request. *)
Record CreateAlertRequest := mkCreateAlertRequest {
  req_title : string;
  req_message : string;
  req_severity : AlertSeverity;
  req_visibilityType : string;
  req_visibilityTarget : option string;
  req_startTime : option Date;
  req_expiryTime : option Date;
  req_reminderEnabled : option bool
}.

(** [throw new Error('Failed to create alert')] *)
Inductive AlertServiceError := FailedToCreateAlert.

Module AlertService.
Section WithChannels.

(** The channels of the [NotificationService] the alert service constructs. *)
Variable enabledChannels : list NotificationChannelStrategy.

(** [INSERT INTO alerts]: the statement is rejected when the id is taken
    (PRIMARY KEY), when [visibility_type] is not one of the three values of
    its CHECK, or when [created_by] is no user (FOREIGN KEY); otherwise the
    row is added with [archived_at] NULL. The CHECK of [severity] holds of
    every value of [AlertSeverity], and [title] and [message] are strings
    (NOT NULL). *)
Definition insertAlert (s : Store) (alert : Alert) : option Store :=
  if existsb (fun a : AlertRow => String.eqb (alert_id a) (alert_id alert)) (alerts s)
     || negb (existsb (String.eqb (visibilityType alert)) ["organization"; "team"; "user"])
     || negb (existsb (fun u => String.eqb (user_id u) (createdBy alert)) (users s))
  then None
  else Some (mkStore (alerts s ++ [mkAlertRow alert None]) (users s)
               (user_alert_preferences s) (notification_deliveries s)).

(** [alertId] is the value [uuidv4()] returns. The request has the types of
    [CreateAlertRequest]: [startTime] and [expiryTime] are dates, on which
    [toISOString()] is defined. *)
Definition createAlert (alertId : string) (now : Date) (s : Store)
    (request : CreateAlertRequest) (createdBy : string)
    : AlertServiceError + (Alert * Store) :=
  let alert :=
    mkAlert alertId (req_title request) (req_message request) (req_severity request)
      (req_visibilityType request) (req_visibilityTarget request)
      (req_startTime request) (req_expiryTime request)
      (default true (req_reminderEnabled request)) createdBy in
  match insertAlert s alert with
  | None => inl FailedToCreateAlert
  | Some s1 =>
      if match startTime alert with None => true | Some st => st <=? now end then
        match NotificationService.deliverAlert enabledChannels now s1 (alert_id alert) with
        | inl _ => inl FailedToCreateAlert
        | inr s2 => inr (alert, s2)
        end
      else inr (alert, s1)
  end.

(** [UPDATE alerts SET archived_at = ? WHERE id = ? AND archived_at IS NULL];
    the result is [changes > 0]. The statement does not record [archivedBy]. *)
Definition archiveAlert (now : Date) (s : Store) (alertId archivedBy : string)
    : bool * Store :=
  let hit := fun a : AlertRow => String.eqb (alert_id a) alertId && is_null (archived_at a) in
  (existsb hit (alerts s),
   mkStore ((fun a : AlertRow => if hit a then mkAlertRow a (Some now) else a) <$> alerts s)
     (users s) (user_alert_preferences s) (notification_deliveries s)).

(** The query of [NotificationService.getAlert], with the row mapped by
    [mapDatabaseRowToAlert]. *)
Definition getAlertById (s : Store) (alertId : string) : option Alert :=
  row_alert <$>
    List.find (fun a : AlertRow => String.eqb (alert_id a) alertId
                                   && is_null (archived_at a))
              (alerts s).

End WithChannels.
End AlertService.

(** ** Controllers (src/controllers/UserController.ts, AdminController.ts) *)

(** The [hours] field of a request body: absent, a number, or a value that
    is not a number. Numbers are integral here, as [hoursToSnooze] is. *)
Inductive JsValue := JsUndefined | JsNumber (n : Z) | JsNotANumber.

Record AuthRequest := mkRequest {
  req_user : option User;
  params_id : string;
  body_hours : JsValue
}.

Inductive ResponseBody :=
  | ErrorBody (error : string)
  | MarkedAsReadBody (alertId userId : string)
  | SnoozedBody (alertId userId : string) (snoozedUntil : Date) (hours : Z)
  | DeliveryTriggeredBody (alertId : string).

(** [res.status(code).json(body)]; [res.json(body)] answers 200. *)
Record Response := mkResponse {
  statusCode : Z;
  responseBody : ResponseBody
}.

Module UserController.

Definition markAlertAsRead (now : Date) (s : Store) (req : AuthRequest) : Response * Store :=
  match req_user req with
  | None => (mkResponse 401 (ErrorBody "Authentication required"), s)
  | Some user =>
      let alertId := params_id req in
      match AlertService.getAlertById s alertId with
      | None => (mkResponse 404 (ErrorBody "Alert not found"), s)
      | Some alert =>
          (mkResponse 200 (MarkedAsReadBody alertId (user_id user)),
           NotificationService.markAlertAsRead now s (user_id user) alertId)
      end
  end.

(** [typeof hours !== 'number' || hours < 1 || hours > 168], after the
    default 24 of the destructuring has replaced an absent field. *)
Definition validHours (hours : JsValue) : option Z :=
  match hours with
  | JsUndefined => Some 24
  | JsNumber n => if (n <? 1) || (n >? 168) then None else Some n
  | JsNotANumber => None
  end.

Definition snoozeAlert (now : Date) (s : Store) (req : AuthRequest) : Response * Store :=
  match req_user req with
  | None => (mkResponse 401 (ErrorBody "Authentication required"), s)
  | Some user =>
      let alertId := params_id req in
      match AlertService.getAlertById s alertId with
      | None => (mkResponse 404 (ErrorBody "Alert not found"), s)
      | Some alert =>
          match validHours (body_hours req) with
          | None =>
              (mkResponse 400 (ErrorBody "Hours must be a number between 1 and 168"), s)
          | Some hours =>
              let snoozedUntil := now + hours * 60 * 60 * 1000 in
              (mkResponse 200 (SnoozedBody alertId (user_id user) snoozedUntil hours),
               NotificationService.snoozeAlert now s (user_id user) alertId hours)
          end
      end
  end.

End UserController.

Module AdminController.
Section WithChannels.

Variable enabledChannels : list NotificationChannelStrategy.

Definition triggerAlertDelivery (now : Date) (s : Store) (req : AuthRequest)
    : Response * Store :=
  let alertId := params_id req in
  match AlertService.getAlertById s alertId with
  | None => (mkResponse 404 (ErrorBody "Alert not found"), s)
  | Some alert =>
      match NotificationService.deliverAlert enabledChannels now s alertId with
      | inl _ => (mkResponse 500 (ErrorBody "Failed to trigger alert delivery"), s)
      | inr s' => (mkResponse 200 (DeliveryTriggeredBody alertId), s')
      end
  end.

End WithChannels.
End AdminController.

(** ** Reminder scheduler (src/scheduler/ReminderScheduler.ts) *)

(** What a call of the scheduler asks of its environment, in order. *)
Inductive SchedulerEvent :=
  | ProcessReminders
  | SetInterval (intervalMs : Z)
  | ClearInterval
  | LogWarning (text : string).

(** [intervalId] holds the period of the armed timer. *)
Record ReminderScheduler := mkScheduler {
  isRunning : bool;
  intervalId : option Z
}.

Module Scheduler.

(** The state the constructor leaves. *)
Definition initial : ReminderScheduler := mkScheduler false None.

(** [intervalMinutes] is [parseInt(process.env.REMINDER_INTERVAL_MINUTES || '120')]. *)
Definition start (intervalMinutes : Z) (sch : ReminderScheduler)
    : ReminderScheduler * list SchedulerEvent :=
  if isRunning sch then (sch, [LogWarning "Reminder scheduler is already running"])
  else
    let intervalMs := intervalMinutes * 60 * 1000 in
    (mkScheduler true (Some intervalMs), [ProcessReminders; SetInterval intervalMs]).

Definition stop (sch : ReminderScheduler) : ReminderScheduler * list SchedulerEvent :=
  if negb (isRunning sch) then (sch, [LogWarning "Reminder scheduler is not running"])
  else
    match intervalId sch with
    | Some _ => (mkScheduler false None, [ClearInterval])
    | None => (mkScheduler false (intervalId sch), [])
    end.

Definition getStatus (intervalMinutes : Z) (sch : ReminderScheduler) : bool * Z :=
  (isRunning sch, intervalMinutes).

Inductive Command := Start (intervalMinutes : Z) | Stop.

Definition call (c : Command) (sch : ReminderScheduler)
    : ReminderScheduler * list SchedulerEvent :=
  match c with
  | Start intervalMinutes => start intervalMinutes sch
  | Stop => stop sch
  end.

(** A sequence of calls, with the events of all of them. *)
Fixpoint run (cs : list Command) (sch : ReminderScheduler)
    : ReminderScheduler * list SchedulerEvent :=
  match cs with
  | [] => (sch, [])
  | c :: cs' =>
      let '(sch1, events1) := call c sch in
      let '(sch2, events2) := run cs' sch1 in
      (sch2, events1 ++ events2)
  end.

Definition armed (events : list SchedulerEvent) : nat :=
  length (List.filter (fun e => match e with SetInterval _ => true | _ => false end) events).

Definition cleared (events : list SchedulerEvent) : nat :=
  length (List.filter (fun e => match e with ClearInterval => true | _ => false end) events).

End Scheduler.

(** ** Channel factory (src/services/NotificationChannelFactory.ts) *)

(** The three channel classes of the file. Each [deliver] writes a line to
    the console and returns a success; what its [catch] guards does not
    throw. *)
Module Channels.

Definition InAppChannel : NotificationChannelStrategy :=
  mkChannel "in-app"
    (fun _ _ => mkResult true None (Some [("status", "delivered")])).

Definition EmailChannel : NotificationChannelStrategy :=
  mkChannel "email"
    (fun _ _ => mkResult true None (Some [("messageId", "simulated-email-id-123")])).

Definition SmsChannel : NotificationChannelStrategy :=
  mkChannel "sms"
    (fun _ _ => mkResult true None (Some [("messageId", "simulated-sms-id-456")])).

End Channels.

Module NotificationChannelFactory.
Section WithChannelClasses.

(** The instances [new InAppChannel()], [new EmailChannel()] and
    [new SmsChannel()]. *)
Variables InAppChannel EmailChannel SmsChannel : NotificationChannelStrategy.

(** The static fields of the class. *)
Record Registry := mkRegistry {
  channels : list NotificationChannelStrategy;
  isInitialized : bool
}.

(** The values of the static field initialisers. *)
Definition initial : Registry := mkRegistry [] false.

Definition initializeChannels (r : Registry) : Registry :=
  if isInitialized r then r
  else mkRegistry (channels r ++ [InAppChannel; EmailChannel; SmsChannel]) true.

(** The call returns the static array itself. *)
Definition getEnabledChannels (r : Registry)
    : list NotificationChannelStrategy * Registry :=
  let r' := initializeChannels r in
  (channels r', r').

(** The arrays that [calls] successive calls return, first call first. *)
Fixpoint construct (calls : nat) (r : Registry)
    : list (list NotificationChannelStrategy) * Registry :=
  match calls with
  | O => ([], r)
  | S calls' =>
      let '(enabled, r1) := getEnabledChannels r in
      let '(rest, r2) := construct calls' r1 in
      (enabled :: rest, r2)
  end.

End WithChannelClasses.
End NotificationChannelFactory.

(** [this.enabledChannels] of a [NotificationService]: what the constructor
    gets from [NotificationChannelFactory.getEnabledChannels()]. *)
Definition serviceChannels : list NotificationChannelStrategy :=
  (NotificationChannelFactory.getEnabledChannels
     Channels.InAppChannel Channels.EmailChannel Channels.SmsChannel
     NotificationChannelFactory.initial).1.

(** * Vocabulary of the further statements *)

(** [s'] has the [alerts] and [users] of [s] and its delivery rows, in place,
    followed by any number of new ones. *)
Definition extends (s s' : Store) : Prop :=
  alerts s' = alerts s /\
  users s' = users s /\
  notification_deliveries s `prefix_of` notification_deliveries s'.

(** The conditions of [getActiveAlertsWithReminders] on a row, one by one. *)
Definition inactive (now : Date) (a : AlertRow) : Prop :=
  reminderEnabled a = false
  \/ archived_at a <> None
  \/ (exists st, startTime a = Some st /\ now < st)
  \/ (exists e, expiryTime a = Some e /\ e <= now).

(** The alert [createAlert] builds from a request, the id [uuidv4()] drew
    and the creator. *)
Definition requested (alertId : string) (request : CreateAlertRequest)
    (createdBy : string) : Alert :=
  mkAlert alertId (req_title request) (req_message request) (req_severity request)
    (req_visibilityType request) (req_visibilityTarget request)
    (req_startTime request) (req_expiryTime request)
    (default true (req_reminderEnabled request)) createdBy.

(** * Properties of the state engine *)

Section StateEngine.

Implicit Types (now : Date) (alert : Alert) (user : User).

Lemma set_and_true (d : option Date) (test : Date -> bool) :
  set_and d test = true <-> exists t, d = Some t /\ test t = true.
Proof.
  destruct d as [t|]; simpl.
  - split; [eauto | intros (t' & [= <-] & H); exact H].
  - split; [discriminate | intros (t' & [=] & _)].
Qed.

Lemma set_and_false (d : option Date) (test : Date -> bool) :
  set_and d test = false <-> forall t, d = Some t -> test t = false.
Proof.
  destruct d as [t|]; simpl.
  - split; [intros H t' [= <-]; exact H | eauto].
  - split; [intros _ t' [=] | reflexivity].
Qed.

(** What the [Active] handler computes: both ends of the window are
    compared with a strict test for being outside. *)
Lemma ActiveAlertState_canDeliver_true now alert user :
  ActiveAlertState.canDeliver now alert user = true <->
  (forall st, startTime alert = Some st -> st <= now) /\
  (forall e, expiryTime alert = Some e -> now <= e).
Proof.
  unfold ActiveAlertState.canDeliver.
  destruct (set_and (startTime alert) _) eqn:Hs;
    [apply set_and_true in Hs as (st & Hst & Hlt) | rewrite set_and_false in Hs].
  - split; [discriminate | intros [H _]]. specialize (H st Hst). lia.
  - destruct (set_and (expiryTime alert) _) eqn:He;
      [apply set_and_true in He as (e & Hex & Hgt) | rewrite set_and_false in He].
    + split; [discriminate | intros [_ H]]. specialize (H e Hex). lia.
    + split; [intros _ | reflexivity].
      split; [intros st Hst; specialize (Hs st Hst) | intros e Hex; specialize (He e Hex)]; lia.
Qed.

Lemma getState_cases now alert (preference : option UserAlertPreference) :
  (AlertStateManager.getState now alert preference = EXPIRED <->
     exists e, expiryTime alert = Some e /\ now > e) /\
  (AlertStateManager.getState now alert preference = SNOOZED <->
     ~ (exists e, expiryTime alert = Some e /\ now > e) /\
     exists p su, preference = Some p /\ snoozedUntil p = Some su /\ now < su) /\
  (AlertStateManager.getState now alert preference = ACTIVE <->
     ~ (exists e, expiryTime alert = Some e /\ now > e) /\
     ~ (exists p su, preference = Some p /\ snoozedUntil p = Some su /\ now < su)).
Proof.
  unfold AlertStateManager.getState.
  destruct (set_and (expiryTime alert) _) eqn:He.
  { apply set_and_true in He as (e & Hex & Hgt).
    assert (exists e, expiryTime alert = Some e /\ now > e) by (exists e; split; [done | lia]).
    split_and!; (split; [try done | try tauto]); try tauto. }
  rewrite set_and_false in He.
  assert (Hne : ~ (exists e, expiryTime alert = Some e /\ now > e))
    by (intros (e & Hex & Hgt); specialize (He e Hex); lia).
  destruct (set_and (preference ≫= snoozedUntil) _) eqn:Hs.
  { apply set_and_true in Hs as (su & Hsu & Hgt).
    destruct preference as [p|]; [simpl in Hsu | discriminate].
    assert (exists p0 su0, Some p = Some p0 /\ snoozedUntil p0 = Some su0 /\ now < su0)
      by (exists p, su; split_and!; [done | done | lia]).
    split_and!; (split; [try done | try tauto]); try tauto. }
  rewrite set_and_false in Hs.
  assert (Hns : ~ (exists p su, preference = Some p /\ snoozedUntil p = Some su /\ now < su)).
  { intros (p & su & -> & Hsu & Hlt). specialize (Hs su Hsu). lia. }
  destruct (set_and (startTime alert) _); split_and!; (split; [try done | try tauto]); try tauto.
Qed.

(** C4: the effective state is [EXPIRED] exactly when the expiry time is set
    and [now] is after it, whatever the preference; otherwise [SNOOZED]
    exactly when the preference carries a [snoozedUntil] after [now];
    otherwise [ACTIVE], and the start time plays no part, so an alert that
    has not started yet is [ACTIVE] too. *)
Theorem getState_priority now alert (preference : option UserAlertPreference) :
  (AlertStateManager.getState now alert preference = EXPIRED <->
     exists e, expiryTime alert = Some e /\ now > e) /\
  (AlertStateManager.getState now alert preference = SNOOZED <->
     ~ (exists e, expiryTime alert = Some e /\ now > e) /\
     exists p su, preference = Some p /\ snoozedUntil p = Some su /\ now < su) /\
  (AlertStateManager.getState now alert preference = ACTIVE <->
     ~ (exists e, expiryTime alert = Some e /\ now > e) /\
     ~ (exists p su, preference = Some p /\ snoozedUntil p = Some su /\ now < su)).
Proof. exact (getState_cases now alert preference). Qed.

(** C2, at the end of the window: when [now] is the expiry instant itself
    the state is [ACTIVE] and both the [Active] handler and the manager
    answer that the alert can be delivered. *)
Theorem canDeliver_at_expiry_instant alert user (e : Date) :
  expiryTime alert = Some e ->
  (forall st, startTime alert = Some st -> st <= e) ->
  AlertStateManager.getState e alert None = ACTIVE /\
  ActiveAlertState.canDeliver e alert user = true /\
  AlertStateManager.canDeliver e alert user None = true.
Proof.
  intros He Hst.
  assert (Hactive : AlertStateManager.getState e alert None = ACTIVE).
  { apply getState_cases. split.
    - intros (e' & He' & Hgt). rewrite He in He'. injection He' as <-. lia.
    - intros (p & su & [=] & _). }
  assert (Hcan : ActiveAlertState.canDeliver e alert user = true).
  { apply ActiveAlertState_canDeliver_true. split; [exact Hst |].
    intros e' He'. rewrite He in He'. injection He' as <-. lia. }
  unfold AlertStateManager.canDeliver. rewrite Hactive. auto.
Qed.

Lemma canDeliver_at_expiry_instant_witness :
  let alert := mkAlert "a1" "Outage" "Database down" CRITICAL "organization"
                 None (Some 500) (Some 1000) true "admin" in
  let user := mkUser "u1" "John" "john@company.com" None USER in
  AlertStateManager.getState 1000 alert None = ACTIVE /\
  ActiveAlertState.canDeliver 1000 alert user = true /\
  AlertStateManager.canDeliver 1000 alert user None = true.
Proof.
  intros alert user.
  apply (canDeliver_at_expiry_instant alert user 1000).
  - reflexivity.
  - intros st [= <-]. lia.
Defined.

(** The manager's answer, in terms of the three instants it reads. *)
Lemma AlertStateManager_canDeliver_true (now : Date) (alert : Alert) (user : User)
    (preference : option UserAlertPreference) :
  AlertStateManager.canDeliver now alert user preference = true <->
  (forall e, expiryTime alert = Some e -> now <= e) /\
  (forall p su, preference = Some p -> snoozedUntil p = Some su -> su <= now) /\
  (forall st, startTime alert = Some st -> st <= now).
Proof.
  unfold AlertStateManager.canDeliver.
  pose proof (getState_cases now alert preference) as (Hexp & Hsno & Hact).
  destruct (AlertStateManager.getState now alert preference) eqn:Hstate; simpl.
  - rewrite ActiveAlertState_canDeliver_true.
    destruct Hact as [Hact _]. destruct (Hact eq_refl) as [Hne Hns].
    split; [intros [Hst Hex] | intros (Hex & _ & Hst); done].
    split_and!; [done | | done].
    intros p su -> Hsu. destruct (decide (su <= now)); [done |].
    destruct Hns. exists p, su. split_and!; [done | done | lia].
  - destruct Hsno as [Hsno _]. destruct (Hsno eq_refl) as [_ (p & su & -> & Hsu & Hlt)].
    split; [discriminate |]. intros (_ & H & _). specialize (H p su eq_refl Hsu). lia.
  - destruct Hexp as [Hexp _]. destruct (Hexp eq_refl) as (e & He & Hgt).
    split; [discriminate |]. intros (H & _). specialize (H e He). lia.
Qed.

Lemma getNextReminderTime_cases now (reminderInterval : Z) alert
    (lastDelivery : option Date) :
  (ActiveAlertState.getNextReminderTime now reminderInterval alert lastDelivery = None <->
     reminderEnabled alert = false \/
     exists e, expiryTime alert = Some e /\
               default now lastDelivery + reminderInterval * 60 * 1000 > e) /\
  (forall t,
     ActiveAlertState.getNextReminderTime now reminderInterval alert lastDelivery = Some t <->
     reminderEnabled alert = true /\
     t = default now lastDelivery + reminderInterval * 60 * 1000 /\
     forall e, expiryTime alert = Some e -> t <= e).
Proof.
  unfold ActiveAlertState.getNextReminderTime.
  destruct (reminderEnabled alert); simpl.
  2: { split; [split; [auto | reflexivity] |].
       intros t. split; [discriminate | intros [[=] _]]. }
  destruct (set_and (expiryTime alert) _) eqn:He.
  - apply set_and_true in He as (e & Hex & Hgt).
    split.
    + split; [intros _; right; exists e; split; [done | lia] | reflexivity].
    + intros t. split; [discriminate |].
      intros (_ & -> & H). specialize (H e Hex). lia.
  - rewrite set_and_false in He.
    split.
    + split; [discriminate |].
      intros [[=] | (e & Hex & Hgt)]. specialize (He e Hex). lia.
    + intros t. split.
      * intros [= <-]. repeat split. intros e Hex. specialize (He e Hex). lia.
      * intros (_ & -> & _). reflexivity.
Qed.

(** C3, at the expiry instant: with reminders enabled, when the computed
    instant [(lastDelivery or now) + reminderInterval] minutes is the expiry
    time itself, the [Active] handler returns that instant and not [null].
    The guard compares with a strict [>], the same comparison that lets
    [canDeliver] through at the expiry instant. *)
Theorem getNextReminderTime_at_expiry_instant now (reminderInterval : Z) alert
    (lastDelivery : option Date) (e : Date) :
  reminderEnabled alert = true ->
  expiryTime alert = Some e ->
  default now lastDelivery + reminderInterval * 60 * 1000 = e ->
  ActiveAlertState.getNextReminderTime now reminderInterval alert lastDelivery = Some e.
Proof.
  intros Hrem He Hnext.
  apply getNextReminderTime_cases. split_and!; [done | done |].
  intros e' He'. rewrite He in He'. injection He' as <-. lia.
Qed.

Lemma getNextReminderTime_at_expiry_instant_witness :
  let alert := mkAlert "a1" "Outage" "Database down" CRITICAL "organization"
                 None None (Some 7200000) true "admin" in
  ActiveAlertState.getNextReminderTime 7000000 120 alert (Some 0) = Some 7200000.
Proof.
  intros alert.
  apply (getNextReminderTime_at_expiry_instant 7000000 120 alert (Some 0) 7200000);
    reflexivity.
Defined.

End StateEngine.

(** * Properties of the orchestrator's queries *)

Section Queries.

Lemma sql_eq_true (x y : option string) :
  sql_eq x y = true <-> exists t, x = Some t /\ y = Some t.
Proof.
  destruct x as [a|], y as [b|]; simpl;
    try (split; [discriminate | intros (t & [=] & [=])]).
  rewrite String.eqb_eq. split.
  - intros ->. eauto.
  - intros (t & [= ->] & [= ->]). reflexivity.
Qed.

Lemma filter_none {A : Type} (f : A -> bool) (l : list A) :
  (forall x, x ∈ l -> f x = false) -> List.filter f l = [].
Proof.
  induction l as [|x l IH]; intros H; simpl; [done |].
  rewrite (H x) by left. apply IH. intros y Hy. apply H. by right.
Qed.

Lemma filter_all {A : Type} (f : A -> bool) (l : list A) :
  (forall x, x ∈ l -> f x = true) -> List.filter f l = l.
Proof.
  induction l as [|x l IH]; intros H; simpl; [done |].
  rewrite (H x) by left. f_equal. apply IH. intros y Hy. apply H. by right.
Qed.

Lemma elem_of_List_filter {A : Type} (f : A -> bool) (l : list A) (x : A) :
  x ∈ List.filter f l <-> x ∈ l /\ f x = true.
Proof. rewrite !list_elem_of_In. apply filter_In. Qed.

(** A query by primary key returns the one row that has the key. *)
Lemma filter_primary_key {A : Type} (key : A -> string) (l : list A) (u : A) :
  NoDup (key <$> l) -> u ∈ l ->
  List.filter (fun x => String.eqb (key x) (key u)) l = [u].
Proof.
  induction l as [|x l IH]; intros Hnd Hu; [by apply elem_of_nil in Hu |].
  rewrite fmap_cons in Hnd. apply NoDup_cons in Hnd as [Hx Hnd].
  simpl. apply elem_of_cons in Hu as [-> | Hu].
  - rewrite String.eqb_refl. f_equal. apply filter_none.
    intros y Hy. apply String.eqb_neq. intros Heq.
    apply Hx. rewrite <- Heq. by apply list_elem_of_fmap_2.
  - assert (String.eqb (key x) (key u) = false) as ->.
    { apply String.eqb_neq. intros Heq. apply Hx. rewrite Heq.
      by apply list_elem_of_fmap_2. }
    by apply IH.
Qed.

(** C5: the recipients resolved for an alert are all users for
    [organization]; for [team], the users whose team is the target; for
    [user], the one user whose id is the target (none when no user has
    it); and for any other visibility value the empty list, a value and
    not an error. The ids of the [users] table are its primary key. *)
Theorem getEligibleUsers_by_visibility (s : Store) (alert : Alert) :
  NoDup (user_id <$> users s) ->
  (visibilityType alert = "organization" ->
     NotificationService.getEligibleUsers s alert = users s) /\
  (visibilityType alert = "team" ->
     forall u, u ∈ NotificationService.getEligibleUsers s alert <->
               u ∈ users s /\
               exists t, visibilityTarget alert = Some t /\ teamId u = Some t) /\
  (visibilityType alert = "user" ->
     (forall u, u ∈ users s -> visibilityTarget alert = Some (user_id u) ->
                NotificationService.getEligibleUsers s alert = [u]) /\
     ((forall u, u ∈ users s -> visibilityTarget alert <> Some (user_id u)) ->
      NotificationService.getEligibleUsers s alert = [])) /\
  (visibilityType alert <> "organization" ->
   visibilityType alert <> "team" ->
   visibilityType alert <> "user" ->
     NotificationService.getEligibleUsers s alert = []).
Proof.
  intros Hnd. unfold NotificationService.getEligibleUsers. split_and!.
  - intros ->. simpl. apply filter_all. intros u _. by destruct (role u).
  - intros ->. simpl. intros u.
    rewrite elem_of_List_filter, sql_eq_true.
    split; intros [Hu (t & ? & ?)]; (split; [done | by exists t]).
  - intros ->. simpl. split.
    + intros u Hu ->. simpl. by apply filter_primary_key.
    + intros Hnone. apply filter_none. intros u Hu.
      destruct (sql_eq (Some (user_id u)) (visibilityTarget alert)) eqn:Heq; [| done].
      apply sql_eq_true in Heq as (t & [= <-] & Ht). by destruct (Hnone u Hu).
  - intros H1 H2 H3.
    apply String.eqb_neq in H1, H2, H3. by rewrite H1, H2, H3.
Qed.

Lemma getEligibleUsers_by_visibility_witness :
  let john := mkUser "u1" "John" "john@company.com" (Some "eng") USER in
  let jane := mkUser "u2" "Jane" "jane@company.com" (Some "ops") USER in
  let root := mkUser "u3" "Admin" "admin@company.com" None ADMIN in
  let s := mkStore [] [john; jane; root] ∅ [] in
  let alert vt target :=
    mkAlert "a1" "Outage" "Database down" CRITICAL vt target None None true "u3" in
  NotificationService.getEligibleUsers s (alert "organization" None) = [john; jane; root] /\
  NotificationService.getEligibleUsers s (alert "user" (Some "u2")) = [jane] /\
  NotificationService.getEligibleUsers s (alert "everyone" None) = [].
Proof.
  intros john jane root s alert.
  assert (Hnd : NoDup (user_id <$> users s)).
  { apply NoDup_ListNoDup. repeat constructor; simpl; intuition discriminate. }
  split_and!.
  - by apply (getEligibleUsers_by_visibility s (alert "organization" None) Hnd).
  - apply (getEligibleUsers_by_visibility s (alert "user" (Some "u2")) Hnd);
      [reflexivity | | reflexivity].
    apply list_elem_of_In. simpl. auto.
  - by apply (getEligibleUsers_by_visibility s (alert "everyone" None) Hnd).
Defined.

End Queries.
(** * Properties of the preference operations *)

Section Preferences.

Variable enabledChannels : list NotificationChannelStrategy.
Variable REMINDER_INTERVAL_MINUTES : Z.

Implicit Types (now : Date) (s : Store) (alert : Alert) (user : User).
Implicit Types (userId alertId : string) (k : string * string).

Lemma fold_left_preserves {A S : Type} (f : S -> A -> S) (P : S -> Prop)
    (l : list A) (acc : S) :
  P acc -> (forall acc' x, x ∈ l -> P acc' -> P (f acc' x)) -> P (fold_left f l acc).
Proof.
  revert acc. induction l as [|x l IH]; intros acc Hacc Hstep; simpl; [done |].
  apply IH.
  - apply Hstep; [left | done].
  - intros acc' y Hy. apply Hstep. by right.
Qed.

Lemma fold_left_idle {A S : Type} (f : S -> A -> S) (l : list A) (acc : S) :
  (forall acc' x, x ∈ l -> f acc' x = acc') -> fold_left f l acc = acc.
Proof.
  intros Hidle. apply (fold_left_preserves f (fun acc' => acc' = acc)); [done |].
  intros acc' x Hx ->. by apply Hidle.
Qed.

Lemma store_eta s :
  mkStore (alerts s) (users s) (user_alert_preferences s) (notification_deliveries s) = s.
Proof. by destruct s. Qed.

(** *** What the engine answers on the objects the orchestrator hands it *)

(** On a preference as the query returned it, the manager's [canDeliver] is
    the window test of the [Active] handler: the row's snooze is not seen. *)
Lemma canDeliver_rawPreference now alert user (row : option UserAlertPreference) :
  AlertStateManager.canDeliver now alert user (rawPreference <$> row)
  = ActiveAlertState.canDeliver now alert user.
Proof.
  unfold AlertStateManager.canDeliver, AlertStateManager.getState,
    ActiveAlertState.canDeliver, set_and.
  assert ((rawPreference <$> row) ≫= snoozedUntil = None) as -> by by destruct row.
  destruct (expiryTime alert) as [e|] eqn:He, (startTime alert) as [st|] eqn:Hst; simpl;
    repeat (case_match; simpl; try done);
    unfold ActiveAlertState.canDeliver, set_and; rewrite ?He, ?Hst;
    repeat (case_match; simpl; try done); congruence.
Qed.

(** With [reminderEnabled] falsy the manager asks for no reminder. *)
Lemma shouldCreateReminder_disabled now alert (p : UserAlertPreference) :
  reminderEnabled alert = false ->
  AlertStateManager.shouldCreateReminder now alert p = false.
Proof.
  intros Hoff. unfold AlertStateManager.shouldCreateReminder.
  destruct (AlertStateManager.getState now alert (Some p)); simpl; [| done | done].
  unfold ActiveAlertState.shouldCreateReminder. by rewrite Hoff.
Qed.

(** *** The channel loop *)

Lemma deliverVia_unfold now alert user (channels : list NotificationChannelStrategy) s :
  NotificationService.deliverVia now alert user
    (mkNotification (alert_id alert) (title alert) (message alert) (severity alert) now)
    channels s
  = (mkStore (alerts s) (users s) (user_alert_preferences s)
       (notification_deliveries s ++ attempts (accepted channels) now alert user),
     forallb (fun channel => channel_check (getName channel)) channels).
Proof.
  revert s. induction channels as [|ch chs IH]; intros s; simpl.
  - by rewrite app_nil_r, store_eta.
  - unfold NotificationService.recordDelivery. simpl.
    destruct (channel_check (getName ch)); simpl.
    + rewrite IH. simpl. unfold attempts. simpl. by rewrite <- app_assoc.
    + by rewrite app_nil_r, store_eta.
Qed.

(** [deliverToUser] in closed form. *)
Lemma deliverToUser_unfold now s alert user :
  NotificationService.deliverToUser enabledChannels now s alert user =
  if ActiveAlertState.canDeliver now alert user then
    let s' := mkStore (alerts s) (users s) (user_alert_preferences s)
                (notification_deliveries s
                 ++ attempts (accepted enabledChannels) now alert user) in
    if forallb (fun channel => channel_check (getName channel)) enabledChannels
    then NotificationService.ensureUserAlertPreference now s' (user_id user) (alert_id alert)
    else s'
  else s.
Proof.
  unfold NotificationService.deliverToUser.
  rewrite canDeliver_rawPreference.
  destruct (ActiveAlertState.canDeliver now alert user); simpl; [| done].
  by rewrite deliverVia_unfold.
Qed.

(** *** What the orchestrator does with the rows it loads *)

Lemma remindUser_disabled now alert s user :
  reminderEnabled alert = false ->
  NotificationService.remindUser enabledChannels REMINDER_INTERVAL_MINUTES now alert s user = s.
Proof.
  intros Hoff. unfold NotificationService.remindUser.
  destruct (rawPreference <$> _) as [preference|]; [| done].
  by rewrite shouldCreateReminder_disabled.
Qed.

Lemma processAlertReminders_disabled now s alert :
  reminderEnabled alert = false ->
  NotificationService.processAlertReminders enabledChannels REMINDER_INTERVAL_MINUTES
    now s alert = s.
Proof.
  intros Hoff. unfold NotificationService.processAlertReminders.
  apply fold_left_idle. intros s' user _. by apply remindUser_disabled.
Qed.

(** A reminder pass hands the engine the rows of [alerts] as they are; on
    them [reminderEnabled] is [undefined], and the pass writes nothing. *)
Lemma processReminders_idle now s :
  NotificationService.processReminders enabledChannels REMINDER_INTERVAL_MINUTES now s = s.
Proof.
  unfold NotificationService.processReminders. apply fold_left_idle.
  intros s' alert Halert. apply processAlertReminders_disabled.
  unfold NotificationService.getActiveAlertsWithReminders in Halert.
  by apply list_elem_of_fmap in Halert as (a & -> & _).
Qed.

Lemma scheduler_ticks_idle (ticks : list Date) s :
  scheduler_ticks enabledChannels REMINDER_INTERVAL_MINUTES ticks s = s.
Proof.
  unfold scheduler_ticks. apply fold_left_idle. intros s' now _. apply processReminders_idle.
Qed.

(** On a row of [alerts] as it is, the [switch] of [getEligibleUsers] takes
    its [default]. *)
Lemma getEligibleUsers_rawAlert s (row : AlertRow) :
  NotificationService.getEligibleUsers s (rawAlert row) = [].
Proof. reflexivity. Qed.

Lemma deliverAlert_unfold now s alertId :
  NotificationService.deliverAlert enabledChannels now s alertId
  = match NotificationService.getAlert s alertId with
    | Some _ => inr s
    | None => inl (AlertNotFound alertId)
    end.
Proof.
  unfold NotificationService.deliverAlert, NotificationService.getAlert.
  by destruct (List.find _ (alerts s)).
Qed.

(** *** Rows that exist are not rewritten by deliveries and reminders *)

Lemma ensure_keeps now s userId alertId k p :
  user_alert_preferences s !! k = Some p ->
  user_alert_preferences
    (NotificationService.ensureUserAlertPreference now s userId alertId) !! k = Some p.
Proof.
  intros Hk. unfold NotificationService.ensureUserAlertPreference.
  destruct (user_alert_preferences s !! (userId, alertId)) eqn:Hrow; simpl; [done |].
  rewrite lookup_insert_ne; [done |]. intros <-. congruence.
Qed.

Lemma deliverToUser_keeps now s alert user k p :
  user_alert_preferences s !! k = Some p ->
  user_alert_preferences
    (NotificationService.deliverToUser enabledChannels now s alert user) !! k = Some p.
Proof.
  intros Hk. rewrite deliverToUser_unfold.
  destruct (ActiveAlertState.canDeliver _ _ _); [| done]. simpl.
  destruct (forallb _ enabledChannels); [| done].
  by apply ensure_keeps.
Qed.

Lemma deliverAlert_keeps now s alertId s' k p :
  NotificationService.deliverAlert enabledChannels now s alertId = inr s' ->
  user_alert_preferences s !! k = Some p ->
  user_alert_preferences s' !! k = Some p.
Proof.
  rewrite deliverAlert_unfold.
  destruct (NotificationService.getAlert s alertId); [| discriminate].
  by intros [= <-].
Qed.

End Preferences.

Lemma preference_step_keeps_read (s s' : Store) (userId alertId : string) :
  preference_step s s' -> readBy s userId alertId -> readBy s' userId alertId.
Proof.
  unfold readBy, NotificationService.getUserAlertPreference.
  intros Hstep (p & Hp & Hread).
  destruct Hstep as [now s uid aid | chs now s alert user | chs now s aid s' Hok
                    | chs interval now s | now s uid aid | now s uid aid hours].
  - exists p. split; [by apply ensure_keeps | done].
  - exists p. split; [by apply deliverToUser_keeps | done].
  - exists p. split; [by eapply deliverAlert_keeps | done].
  - exists p. by rewrite processReminders_idle.
  - unfold NotificationService.markAlertAsRead; simpl.
    destruct (decide ((uid, aid) = (userId, alertId))) as [-> | Hne].
    + rewrite lookup_insert_eq. eauto.
    + rewrite lookup_insert_ne by done. eauto.
  - unfold NotificationService.snoozeAlert; simpl.
    destruct (decide ((uid, aid) = (userId, alertId))) as [Heq | Hne].
    + rewrite Heq, lookup_insert_eq, Hp. eauto.
    + rewrite lookup_insert_ne by done. eauto.
Qed.

(** C8: along any sequence of operations that write preferences (the lazy
    creation by [deliverToUser], alone or inside [deliverAlert] and
    [processReminders], [markAlertAsRead], [snoozeAlert]) a row that has
    [isRead = true] keeps it. And on any store [snoozeAlert] leaves for the
    pair the row with the new [snoozedUntil] and the [isRead] of the row it
    replaces, read or unread; when there was no row, the new one is unread.
    The rows of the other pairs are the ones the store had. *)
Theorem isRead_monotonic (s s' : Store) (userId alertId : string) :
  (rtc preference_step s s' -> readBy s userId alertId -> readBy s' userId alertId) /\
  (forall (now : Date) (hours : Z),
     let s1 := NotificationService.snoozeAlert now s userId alertId hours in
     (exists p1,
        NotificationService.getUserAlertPreference s1 userId alertId = Some p1 /\
        snoozedUntil p1 = Some (now + hours * 60 * 60 * 1000) /\
        isRead p1 = match NotificationService.getUserAlertPreference s userId alertId with
                    | Some p => isRead p
                    | None => false
                    end) /\
     (forall userId' alertId', (userId', alertId') <> (userId, alertId) ->
        NotificationService.getUserAlertPreference s1 userId' alertId'
        = NotificationService.getUserAlertPreference s userId' alertId')).
Proof.
  split.
  - intros Hsteps Hread.
    induction Hsteps as [| s1 s2 s3 Hstep _ IH]; [done |].
    apply IH. by eapply preference_step_keeps_read.
  - intros now hours s1. subst s1.
    unfold NotificationService.getUserAlertPreference, NotificationService.snoozeAlert.
    simpl. split.
    + eexists. split; [apply lookup_insert_eq |]. by split.
    + intros userId' alertId' Hne. by rewrite lookup_insert_ne.
Qed.

Lemma isRead_monotonic_witness :
  let alert := mkAlert "a1" "Outage" "Database down" CRITICAL "organization"
                 None None None true "u3" in
  let john := mkUser "u1" "John" "john@company.com" None USER in
  let jane := mkUser "u2" "Jane" "jane@company.com" None USER in
  let s0 :=
    mkStore [mkAlertRow alert None] [john; jane]
      {[ ("u1", "a1") := mkPreference "u1" "a1" true None 0;
         ("u2", "a1") := mkPreference "u2" "a1" false None 0 ]}
      [mkDelivery "a1" "u1" "in_app" 0 DELIVERED None;
       mkDelivery "a1" "u2" "in_app" 0 DELIVERED None] in
  let s1 := NotificationService.snoozeAlert 10 s0 "u1" "a1" 24 in
  let s2 := NotificationService.deliverToUser serviceChannels 20 s1 alert john in
  let s3 := NotificationService.processReminders serviceChannels 120 7200000 s2 in
  let s4 := NotificationService.snoozeAlert 7200010 s3 "u2" "a1" 1 in
  readBy s4 "u1" "a1" /\
  NotificationService.getUserAlertPreference s4 "u2" "a1"
  = Some (mkPreference "u2" "a1" false (Some 10800010) 7200010).
Proof.
  intros alert john jane s0 s1 s2 s3 s4. split.
  - apply (isRead_monotonic s0 s4 "u1" "a1").
    + apply (rtc_l _ _ s1); [apply step_snoozeAlert |].
      apply (rtc_l _ _ s2); [apply step_deliverToUser |].
      apply (rtc_l _ _ s3); [apply step_processReminders |].
      apply rtc_once, step_snoozeAlert.
    + exists (mkPreference "u1" "a1" true None 0). split; reflexivity.
  - destruct (isRead_monotonic s3 s3 "u2" "a1") as [_ Hsnooze].
    destruct (Hsnooze 7200010 1) as [(p1 & Hp1 & Hsu & Hread) _].
    fold s4 in Hp1. rewrite Hp1. f_equal.
    vm_compute in Hp1. by injection Hp1 as <-.
Defined.

(** C10: after [markAlertAsRead] the row of the pair is read and carries no
    snooze, whatever it carried before; the other rows and the other tables
    are as they were. *)
Theorem markAlertAsRead_clears_snooze (now : Date) (s : Store) (userId alertId : string) :
  let s' := NotificationService.markAlertAsRead now s userId alertId in
  (exists p, NotificationService.getUserAlertPreference s' userId alertId = Some p
             /\ isRead p = true /\ snoozedUntil p = None) /\
  (forall userId' alertId', (userId', alertId') <> (userId, alertId) ->
     NotificationService.getUserAlertPreference s' userId' alertId'
     = NotificationService.getUserAlertPreference s userId' alertId') /\
  alerts s' = alerts s /\ users s' = users s /\
  notification_deliveries s' = notification_deliveries s.
Proof.
  unfold NotificationService.getUserAlertPreference, NotificationService.markAlertAsRead.
  simpl. split_and!; try done.
  - rewrite lookup_insert_eq. eauto.
  - intros userId' alertId' Hne. by rewrite lookup_insert_ne.
Qed.

(** * Properties of [deliverToUser] *)

Section DeliverToUser.

Implicit Types (now : Date) (s : Store) (alert : Alert) (user : User).

(** The first channel of a constructed service carries a name that is not a
    value of [NotificationChannel]. *)
Lemma serviceChannels_rejected :
  accepted serviceChannels = [] /\
  forallb (fun channel => channel_check (getName channel)) serviceChannels = false.
Proof. by split. Qed.

(** With the channels of a constructed service, [deliverToUser] records
    nothing and creates no row: the first [recordDelivery] of the loop is
    rejected and the call ends in its [catch]. *)
Lemma deliverToUser_serviceChannels now s alert user :
  NotificationService.deliverToUser serviceChannels now s alert user = s.
Proof.
  rewrite deliverToUser_unfold.
  destruct serviceChannels_rejected as [-> ->].
  destruct (ActiveAlertState.canDeliver now alert user); [| done].
  simpl. by rewrite app_nil_r, store_eta.
Qed.

(** C1: for a recipient whose row for the alert is read, [deliverToUser], as
    a constructed service runs it, leaves the store as it is: no delivery
    row and no other write; and so does a second call after it. The row
    plays no part in this: the engine is handed the row as the query
    returned it and sees neither [isRead] nor [snoozedUntil]; every call
    that passes the window test ends at the first [recordDelivery] of the
    channel loop, which the CHECK of [channel] rejects for the name
    [in-app], before any row is written. *)
Theorem deliverToUser_read (now now' : Date) s alert user (p : UserAlertPreference) :
  NotificationService.getUserAlertPreference s (user_id user) (alert_id alert) = Some p ->
  isRead p = true ->
  let s1 := NotificationService.deliverToUser serviceChannels now s alert user in
  let s2 := NotificationService.deliverToUser serviceChannels now' s1 alert user in
  s1 = s /\ s2 = s.
Proof.
  intros _ _ s1 s2. subst s1 s2. by rewrite !deliverToUser_serviceChannels.
Qed.

End DeliverToUser.

Lemma deliverToUser_read_witness :
  let alert := mkAlert "a1" "Outage" "Database down" CRITICAL "organization"
                 None None None true "u3" in
  let user := mkUser "u1" "John" "john@company.com" None USER in
  let p := mkPreference "u1" "a1" true None 0 in
  let s := mkStore [mkAlertRow alert None] [user] {[ ("u1", "a1") := p ]}
             [mkDelivery "a1" "u1" "in_app" 0 DELIVERED None] in
  let s1 := NotificationService.deliverToUser serviceChannels 100 s alert user in
  let s2 := NotificationService.deliverToUser serviceChannels 100 s1 alert user in
  ActiveAlertState.canDeliver 100 alert user = true /\ s1 = s /\ s2 = s.
Proof.
  intros alert user p s. split; [reflexivity |].
  apply (deliverToUser_read 100 100 s alert user p); reflexivity.
Defined.

(** * Properties of a reminder pass *)

Section Suppression.

Variable enabledChannels : list NotificationChannelStrategy.
Variable REMINDER_INTERVAL_MINUTES : Z.

(** C9: a recipient with no preference row for the alert gets no delivery
    row from a reminder pass, and the pass creates no row for the pair, so
    the same holds for every later pass of the scheduler. *)
Theorem no_reminder_without_preference (ticks : list Date) (s : Store)
    (userId alertId : string) :
  NotificationService.getUserAlertPreference s userId alertId = None ->
  let s' := scheduler_ticks enabledChannels REMINDER_INTERVAL_MINUTES ticks s in
  deliveries_of alertId userId (notification_deliveries s')
  = deliveries_of alertId userId (notification_deliveries s) /\
  NotificationService.getUserAlertPreference s' userId alertId = None.
Proof.
  intros Hnone s'. subst s'. by rewrite scheduler_ticks_idle.
Qed.

(** C7: once [markAlertAsRead] has run for a pair, no sequence of reminder
    passes adds a delivery row for the pair, and the row stays read. *)
Theorem read_suppresses_reminders (t0 : Date) (ticks : list Date) (s : Store)
    (userId alertId : string) :
  let s1 := NotificationService.markAlertAsRead t0 s userId alertId in
  let s2 := scheduler_ticks enabledChannels REMINDER_INTERVAL_MINUTES ticks s1 in
  deliveries_of alertId userId (notification_deliveries s2)
  = deliveries_of alertId userId (notification_deliveries s1) /\
  readBy s2 userId alertId.
Proof.
  intros s1 s2. subst s2. rewrite scheduler_ticks_idle. split; [done |].
  exists (mkPreference userId alertId true None t0). split; [| done].
  unfold s1, NotificationService.getUserAlertPreference, NotificationService.markAlertAsRead.
  simpl. apply lookup_insert_eq.
Qed.

End Suppression.

Lemma no_reminder_without_preference_witness :
  let alert := mkAlert "a1" "Outage" "Database down" CRITICAL "organization"
                 None None None true "u3" in
  let user := mkUser "u1" "John" "john@company.com" None USER in
  let s := mkStore [mkAlertRow alert None] [user] ∅ [] in
  let s' := scheduler_ticks serviceChannels 120 [7200000; 14400000] s in
  NotificationService.getUsersNeedingReminders 7200000 s "a1" = [user] /\
  deliveries_of "a1" "u1" (notification_deliveries s')
  = deliveries_of "a1" "u1" (notification_deliveries s) /\
  NotificationService.getUserAlertPreference s' "u1" "a1" = None.
Proof.
  intros alert user s. split; [reflexivity |].
  apply (no_reminder_without_preference serviceChannels 120 [7200000; 14400000] s "u1" "a1").
  reflexivity.
Defined.

(** * Reminder spacing *)

Section Spacing.

Variable enabledChannels : list NotificationChannelStrategy.

(** C6, as the code runs: with an interval of 120 minutes and the last
    delivery of the pair at [T], take an alert that has reminders enabled, is
    not archived, has started and has not expired 121 minutes after [T], and
    a recipient the alert is visible to whose row is unread and not snoozed.
    The pass 121 minutes after [T] loads the alert and finds the recipient
    among its candidates, and still writes nothing, as the pass 60 minutes
    after [T] does: the alert it hands the engine is the row as the query
    returned it, on which [reminderEnabled] is [undefined], so
    [shouldCreateReminder] turns every recipient down. *)
Theorem reminder_due_not_delivered (s : Store) (a : AlertRow) (user : User)
    (p : UserAlertPreference) (T : Date) :
  a ∈ alerts s ->
  user ∈ users s ->
  reminderEnabled a = true ->
  archived_at a = None ->
  (forall st, startTime a = Some st -> st <= T + 121 * 60 * 1000) ->
  (forall e, expiryTime a = Some e -> T + 121 * 60 * 1000 < e) ->
  NotificationService.visible_to a user = true ->
  NotificationService.getUserAlertPreference s (user_id user) (alert_id a) = Some p ->
  isRead p = false ->
  snoozedUntil p = None ->
  NotificationService.getLastDeliveryTime s (alert_id a) (user_id user) = Some T ->
  rawAlert a ∈ NotificationService.getActiveAlertsWithReminders (T + 121 * 60 * 1000) s /\
  user ∈ NotificationService.getUsersNeedingReminders (T + 121 * 60 * 1000) s (alert_id a) /\
  NotificationService.processReminders enabledChannels 120 (T + 60 * 60 * 1000) s = s /\
  NotificationService.processReminders enabledChannels 120 (T + 121 * 60 * 1000) s = s.
Proof.
  intros Ha Hu Hrem Harch Hstart Hexp Hvis Hp Hunread Hsnooze _.
  split_and!; [| | apply processReminders_idle | apply processReminders_idle].
  - unfold NotificationService.getActiveAlertsWithReminders.
    apply list_elem_of_fmap_2, elem_of_List_filter. split; [done |].
    rewrite Hrem, Harch. simpl. apply andb_true_iff. split.
    + destruct (startTime a) as [st|]; [| done]. apply Z.leb_le. by apply Hstart.
    + destruct (expiryTime a) as [e|]; [| done].
      apply Z.gtb_gt. specialize (Hexp e eq_refl). lia.
  - unfold NotificationService.getUsersNeedingReminders.
    apply elem_of_List_filter. split; [done |]. apply andb_true_iff. split.
    + apply existsb_exists. exists a.
      split; [by apply list_elem_of_In | by rewrite String.eqb_refl].
    + unfold NotificationService.getUserAlertPreference in Hp. rewrite Hp. simpl.
      by rewrite Hunread, Hsnooze.
Qed.

End Spacing.

Lemma reminder_due_not_delivered_witness :
  let alert := mkAlert "a1" "Outage" "Database down" CRITICAL "team"
                 (Some "eng") None (Some 86400000) true "u3" in
  let a := mkAlertRow alert None in
  let user := mkUser "u1" "John" "john@company.com" (Some "eng") USER in
  let p := mkPreference "u1" "a1" false None 0 in
  let s := mkStore [a] [user] {[ ("u1", "a1") := p ]}
             [mkDelivery "a1" "u1" "in_app" 0 DELIVERED None;
              mkDelivery "a1" "u1" "email" 0 FAILED None] in
  NotificationService.getActiveAlertsWithReminders 7260000 s = [rawAlert a] /\
  NotificationService.getUsersNeedingReminders 7260000 s "a1" = [user] /\
  notification_deliveries (NotificationService.processReminders serviceChannels 120 7260000 s)
  = notification_deliveries s.
Proof.
  intros alert a user p s.
  destruct (reminder_due_not_delivered serviceChannels s a user p 0)
    as (_ & _ & _ & Hlate); try reflexivity.
  - apply list_elem_of_singleton. reflexivity.
  - apply list_elem_of_singleton. reflexivity.
  - intros st [=].
  - intros e [= <-]. reflexivity.
  - split_and!; [reflexivity | reflexivity |].
    exact (f_equal notification_deliveries Hlate).
Defined.

(** * Further properties of the state engine *)

Section StateEngineAnswers.

Implicit Types (now : Date) (alert : Alert) (user : User) (p : UserAlertPreference).

Lemma getState_SNOOZED_intro now alert p su :
  (forall e, expiryTime alert = Some e -> now <= e) ->
  snoozedUntil p = Some su -> now < su ->
  AlertStateManager.getState now alert (Some p) = SNOOZED.
Proof.
  intros Hexp Hsu Hlt. apply getState_cases. split.
  - intros (e & He & Hgt). specialize (Hexp e He). lia.
  - by exists p, su.
Qed.

Lemma getState_EXPIRED_intro now alert (preference : option UserAlertPreference) e :
  expiryTime alert = Some e -> e < now ->
  AlertStateManager.getState now alert preference = EXPIRED.
Proof.
  intros He Hlt. apply getState_cases. exists e. split; [done | lia].
Qed.

(** X1: while a snooze is running on an alert that has not expired, the
    manager answers no to all three questions. *)
Theorem snoozed_answers now (reminderInterval : Z) alert user p (su : Date)
    (lastDelivery : option Date) :
  (forall e, expiryTime alert = Some e -> now <= e) ->
  snoozedUntil p = Some su ->
  now < su ->
  AlertStateManager.getState now alert (Some p) = SNOOZED /\
  AlertStateManager.canDeliver now alert user (Some p) = false /\
  AlertStateManager.getNextReminderTime now reminderInterval alert (Some p) lastDelivery = None /\
  AlertStateManager.shouldCreateReminder now alert p = false.
Proof.
  intros Hexp Hsu Hlt.
  pose proof (getState_SNOOZED_intro now alert p su Hexp Hsu Hlt) as Hstate.
  unfold AlertStateManager.canDeliver, AlertStateManager.getNextReminderTime,
    AlertStateManager.shouldCreateReminder.
  by rewrite Hstate.
Qed.

Lemma snoozed_answers_witness :
  let alert := mkAlert "a1" "Outage" "Database down" CRITICAL "organization"
                 None None (Some 1000) true "u3" in
  let user := mkUser "u1" "John" "john@company.com" None USER in
  let p := mkPreference "u1" "a1" false (Some 900) 0 in
  AlertStateManager.getState 500 alert (Some p) = SNOOZED /\
  AlertStateManager.canDeliver 500 alert user (Some p) = false /\
  AlertStateManager.getNextReminderTime 500 1 alert (Some p) (Some 0) = None /\
  AlertStateManager.shouldCreateReminder 500 alert p = false.
Proof.
  intros alert user p.
  apply (snoozed_answers 500 1 alert user p 900 (Some 0)).
  - intros e [= <-]. lia.
  - reflexivity.
  - lia.
Defined.

(** X2: once [now] is past the expiry time, the manager answers no to all
    three questions, whatever the preference row, the start time and the
    reminder flag are. *)
Theorem expired_answers now (reminderInterval : Z) alert user
    (preference : option UserAlertPreference) p (e : Date) (lastDelivery : option Date) :
  expiryTime alert = Some e ->
  e < now ->
  AlertStateManager.getState now alert preference = EXPIRED /\
  AlertStateManager.canDeliver now alert user preference = false /\
  AlertStateManager.getNextReminderTime now reminderInterval alert preference lastDelivery
  = None /\
  AlertStateManager.shouldCreateReminder now alert p = false.
Proof.
  intros He Hlt.
  unfold AlertStateManager.canDeliver, AlertStateManager.getNextReminderTime,
    AlertStateManager.shouldCreateReminder.
  rewrite !(getState_EXPIRED_intro now alert _ e He Hlt). done.
Qed.

Lemma expired_answers_witness :
  let alert := mkAlert "a1" "Outage" "Database down" CRITICAL "organization"
                 None None (Some 1000) true "u3" in
  let user := mkUser "u1" "John" "john@company.com" None USER in
  let p := mkPreference "u1" "a1" false None 0 in
  AlertStateManager.getState 1001 alert None = EXPIRED /\
  AlertStateManager.canDeliver 1001 alert user None = false /\
  AlertStateManager.getNextReminderTime 1001 120 alert None None = None /\
  AlertStateManager.shouldCreateReminder 1001 alert p = false.
Proof.
  intros alert user p.
  apply (expired_answers 1001 120 alert user None p 1000 None); [reflexivity | lia].
Defined.

Lemma shouldCreateReminder_iff now alert p :
  AlertStateManager.shouldCreateReminder now alert p = true <->
  reminderEnabled alert = true /\
  isRead p = false /\
  (forall su, snoozedUntil p = Some su -> su < now) /\
  (forall e, expiryTime alert = Some e -> now <= e).
Proof.
  unfold AlertStateManager.shouldCreateReminder.
  pose proof (getState_cases now alert (Some p)) as (Hexp & Hsno & Hact).
  destruct (AlertStateManager.getState now alert (Some p)) eqn:Hstate; simpl.
  - destruct Hact as [Hact _]. destruct (Hact eq_refl) as [Hne Hns].
    unfold ActiveAlertState.shouldCreateReminder.
    rewrite !andb_true_iff, negb_true_iff. split.
    + intros [[Hrem Hread] Hsn]. split_and!; [done | done | |].
      * intros su Hsu. rewrite Hsu in Hsn. by apply Z.ltb_lt.
      * intros e He. destruct (decide (now <= e)); [done |].
        destruct Hne. exists e. split; [done | lia].
    + intros (Hrem & Hread & Hsn & _). split_and!; [done | done |].
      destruct (snoozedUntil p) as [su|]; [| done]. apply Z.ltb_lt. by apply Hsn.
  - destruct Hsno as [Hsno _].
    destruct (Hsno eq_refl) as [_ (p' & su & [= <-] & Hsu & Hlt)].
    split; [discriminate |]. intros (_ & _ & H & _). specialize (H su Hsu). lia.
  - destruct Hexp as [Hexp _]. destruct (Hexp eq_refl) as (e & He & Hgt).
    split; [discriminate |]. intros (_ & _ & _ & H). specialize (H e He). lia.
Qed.

(** X3: the manager asks for a reminder exactly when reminders are enabled,
    the row is unread, its snooze, if any, ended strictly before [now], and
    [now] is not past the expiry time. At [now = snoozedUntil] the state is
    already [ACTIVE] and the answer is still no. *)
Theorem shouldCreateReminder_true now alert p :
  AlertStateManager.shouldCreateReminder now alert p = true <->
  reminderEnabled alert = true /\
  isRead p = false /\
  (forall su, snoozedUntil p = Some su -> su < now) /\
  (forall e, expiryTime alert = Some e -> now <= e).
Proof. exact (shouldCreateReminder_iff now alert p). Qed.

(** X4: the manager returns a reminder instant [t] exactly when reminders are
    enabled, [now] is not past the expiry time, no snooze is running, and [t]
    is [(lastDelivery or now) + reminderInterval] minutes and not after the
    expiry time. *)
Theorem manager_getNextReminderTime_Some now (reminderInterval : Z) alert
    (preference : option UserAlertPreference) (lastDelivery : option Date) (t : Date) :
  AlertStateManager.getNextReminderTime now reminderInterval alert preference lastDelivery
  = Some t <->
  reminderEnabled alert = true /\
  (forall e, expiryTime alert = Some e -> now <= e /\ t <= e) /\
  (forall p su, preference = Some p -> snoozedUntil p = Some su -> su <= now) /\
  t = default now lastDelivery + reminderInterval * 60 * 1000.
Proof.
  unfold AlertStateManager.getNextReminderTime.
  pose proof (getState_cases now alert preference) as (Hexp & Hsno & Hact).
  destruct (AlertStateManager.getState now alert preference) eqn:Hstate; simpl.
  - destruct Hact as [Hact _]. destruct (Hact eq_refl) as [Hne Hns].
    pose proof (getNextReminderTime_cases now reminderInterval alert lastDelivery)
      as [_ Hsome].
    rewrite Hsome. split.
    + intros (Hrem & -> & Hle). split_and!; [done | | | done].
      * intros e He. split; [| by apply Hle].
        destruct (decide (now <= e)); [done |].
        destruct Hne. exists e. split; [done | lia].
      * intros p su -> Hsu. destruct (decide (su <= now)); [done |].
        destruct Hns. exists p, su. split_and!; [done | done | lia].
    + intros (Hrem & Hle & _ & ->). split_and!; [done | done |].
      intros e He. by apply Hle.
  - destruct Hsno as [Hsno _]. destruct (Hsno eq_refl) as [_ (p & su & -> & Hsu & Hlt)].
    split; [discriminate |]. intros (_ & _ & H & _). specialize (H p su eq_refl Hsu). lia.
  - destruct Hexp as [Hexp _]. destruct (Hexp eq_refl) as (e & He & Hgt).
    split; [discriminate |]. intros (_ & H & _). destruct (H e He). lia.
Qed.

End StateEngineAnswers.

(** * Further properties of the orchestrator *)

Section Frames.

Variable enabledChannels : list NotificationChannelStrategy.
Variable REMINDER_INTERVAL_MINUTES : Z.

Implicit Types (now : Date) (s : Store) (alert : Alert) (user : User).

Lemma extends_refl s : extends s s.
Proof. by split_and!. Qed.

Lemma extends_trans s1 s2 s3 : extends s1 s2 -> extends s2 s3 -> extends s1 s3.
Proof.
  intros (Ha & Hu & Hd) (Ha' & Hu' & Hd'). split_and!; [congruence | congruence |].
  by etrans.
Qed.

Lemma deliverToUser_extends now s alert user :
  extends s (NotificationService.deliverToUser enabledChannels now s alert user).
Proof.
  rewrite deliverToUser_unfold.
  destruct (ActiveAlertState.canDeliver _ _ _); [| apply extends_refl]. simpl.
  destruct (forallb _ enabledChannels);
    [| split_and!; [done | done | by apply prefix_app_r]].
  unfold NotificationService.ensureUserAlertPreference. simpl.
  destruct (user_alert_preferences s !! (user_id user, alert_id alert));
    (split_and!; [done | done | by apply prefix_app_r]).
Qed.

Lemma deliverAlert_extends now s alertId s' :
  NotificationService.deliverAlert enabledChannels now s alertId = inr s' -> extends s s'.
Proof.
  rewrite deliverAlert_unfold.
  destruct (NotificationService.getAlert s alertId); [| discriminate].
  intros [= <-]. apply extends_refl.
Qed.

End Frames.

Lemma preference_step_extends (s s' : Store) : preference_step s s' -> extends s s'.
Proof.
  intros Hstep.
  destruct Hstep as [now s uid aid | chs now s alert user | chs now s aid s' Hok
                    | chs interval now s | now s uid aid | now s uid aid hours].
  - unfold NotificationService.ensureUserAlertPreference.
    destruct (user_alert_preferences s !! (uid, aid)); by split_and!.
  - apply deliverToUser_extends.
  - by eapply deliverAlert_extends.
  - rewrite processReminders_idle. apply extends_refl.
  - by split_and!.
  - by split_and!.
Qed.

(** X6: along any sequence of calls of the service (deliveries, reminder
    passes, reads and snoozes) the tables [alerts] and [users] are not
    written and the delivery log only grows at its end: the rows it had stay
    where they are, unchanged. *)
Theorem delivery_log_append_only (s s' : Store) :
  rtc preference_step s s' -> extends s s'.
Proof.
  intros Hsteps. induction Hsteps as [s | s1 s2 s3 Hstep _ IH]; [apply extends_refl |].
  eapply extends_trans; [by apply preference_step_extends | exact IH].
Qed.

Lemma delivery_log_append_only_witness :
  let alert := mkAlert "a1" "Outage" "Database down" CRITICAL "organization"
                 None None None true "u3" in
  let user := mkUser "u1" "John" "john@company.com" None USER in
  let s0 := mkStore [mkAlertRow alert None] [user] ∅
              [mkDelivery "a0" "u1" "in_app" 5 DELIVERED None] in
  let s1 := NotificationService.deliverToUser serviceChannels 10 s0 alert user in
  let s2 := NotificationService.snoozeAlert 20 s1 "u1" "a1" 1 in
  let s3 := NotificationService.processReminders serviceChannels 120 172800000 s2 in
  let s4 := NotificationService.markAlertAsRead 172800010 s3 "u1" "a1" in
  extends s0 s4.
Proof.
  intros alert user s0 s1 s2 s3 s4.
  apply (delivery_log_append_only s0 s4).
  apply (rtc_l _ _ s1); [apply step_deliverToUser |].
  apply (rtc_l _ _ s2); [apply step_snoozeAlert |].
  apply (rtc_l _ _ s3); [apply step_processReminders |].
  apply rtc_once, step_markAlertAsRead.
Defined.

Section RejectedChannel.

Variable enabledChannels : list NotificationChannelStrategy.

Implicit Types (now : Date) (s : Store) (alert : Alert) (user : User).

Lemma accepted_app (before after : list NotificationChannelStrategy)
    (rejected : NotificationChannelStrategy) :
  Forall (fun channel => channel_check (getName channel) = true) before ->
  channel_check (getName rejected) = false ->
  accepted (before ++ rejected :: after) = before /\
  forallb (fun channel => channel_check (getName channel)) (before ++ rejected :: after)
  = false.
Proof.
  intros Hbefore Hrejected.
  induction Hbefore as [|ch before Hch _ [IHa IHf]]; simpl.
  - by rewrite Hrejected.
  - by rewrite Hch, IHa, IHf.
Qed.

(** X7: when an enabled channel has a name that the CHECK of [channel]
    rejects, [deliverToUser] stops at it: for an alert inside its window it
    records the rows of the channels before that one and nothing else, so
    the channels after it are not tried and the preference row of the pair
    is not created; outside the window it writes nothing. Every other row
    and table is as it was. *)
Theorem deliverToUser_stops_at_rejected_channel now s alert user
    (before after : list NotificationChannelStrategy)
    (rejected : NotificationChannelStrategy) :
  enabledChannels = before ++ rejected :: after ->
  Forall (fun channel => channel_check (getName channel) = true) before ->
  channel_check (getName rejected) = false ->
  NotificationService.deliverToUser enabledChannels now s alert user
  = mkStore (alerts s) (users s) (user_alert_preferences s)
      (notification_deliveries s
       ++ if ActiveAlertState.canDeliver now alert user
          then attempts before now alert user
          else []).
Proof.
  intros -> Hbefore Hrejected. rewrite deliverToUser_unfold.
  destruct (accepted_app before after rejected Hbefore Hrejected) as [-> ->].
  destruct (ActiveAlertState.canDeliver now alert user); simpl; [done |].
  by rewrite app_nil_r, store_eta.
Qed.

End RejectedChannel.

Lemma deliverToUser_stops_at_rejected_channel_witness :
  let alert := mkAlert "a1" "Outage" "Database down" CRITICAL "organization"
                 None None None true "u3" in
  let user := mkUser "u1" "John" "john@company.com" None USER in
  let s := mkStore [mkAlertRow alert None] [user] ∅ [] in
  NotificationService.deliverToUser serviceChannels 10 s alert user = s.
Proof.
  intros alert user s.
  apply (deliverToUser_stops_at_rejected_channel serviceChannels 10 s alert user
           [] [Channels.EmailChannel; Channels.SmsChannel] Channels.InAppChannel);
    [reflexivity | constructor | reflexivity].
Defined.

Section Lookups.

Implicit Types (now : Date) (s : Store) (alert : Alert) (user : User).

Lemma find_None_iff {A : Type} (f : A -> bool) (l : list A) :
  List.find f l = None <-> forall x, x ∈ l -> f x = false.
Proof.
  induction l as [|y l IH]; simpl.
  - split; [intros _ x Hx; by apply elem_of_nil in Hx | done].
  - destruct (f y) eqn:Hy.
    + split; [discriminate |]. intros H. specialize (H y (list_elem_of_here y l)). congruence.
    + rewrite IH. split.
      * intros H x [-> | Hx]%elem_of_cons; [done | by apply H].
      * intros H x Hx. apply H. by right.
Qed.

(** The query that [getAlert] and [getAlertById] share finds no row. *)
Lemma find_alert_None s (alertId : string) :
  List.find (fun a : AlertRow => String.eqb (alert_id a) alertId && is_null (archived_at a))
    (alerts s) = None <->
  forall a : AlertRow, a ∈ alerts s -> alert_id a = alertId -> archived_at a <> None.
Proof.
  rewrite find_None_iff. split.
  - intros H a Ha Hid Harch. specialize (H a Ha).
    rewrite Hid, String.eqb_refl, Harch in H. discriminate.
  - intros H a Ha. apply andb_false_iff.
    destruct (String.eqb_spec (alert_id a) alertId) as [Hid | Hid]; [right | by left].
    specialize (H a Ha Hid). by destruct (archived_at a).
Qed.

Lemma find_alert_Some s (alertId : string) (a : AlertRow) :
  List.find (fun a : AlertRow => String.eqb (alert_id a) alertId && is_null (archived_at a))
    (alerts s) = Some a ->
  a ∈ alerts s /\ alert_id a = alertId /\ archived_at a = None.
Proof.
  intros Hfind.
  apply find_some in Hfind as [Ha Hhit]. apply andb_true_iff in Hhit as [Hid Harch].
  split_and!; [by apply list_elem_of_In | by apply String.eqb_eq |].
  by destruct (archived_at a).
Qed.

Lemma getAlert_None s (alertId : string) :
  NotificationService.getAlert s alertId = None <->
  forall a : AlertRow, a ∈ alerts s -> alert_id a = alertId -> archived_at a <> None.
Proof.
  unfold NotificationService.getAlert. rewrite fmap_None. apply find_alert_None.
Qed.

Lemma getAlert_Some s (alertId : string) alert :
  NotificationService.getAlert s alertId = Some alert ->
  exists a : AlertRow, a ∈ alerts s /\ rawAlert a = alert /\
                       alert_id a = alertId /\ archived_at a = None.
Proof.
  unfold NotificationService.getAlert. intros (a & Hfind & ->)%fmap_Some.
  apply find_alert_Some in Hfind as (Ha & Hid & Harch). by exists a.
Qed.

Lemma getAlertById_None s (alertId : string) :
  AlertService.getAlertById s alertId = None <->
  NotificationService.getAlert s alertId = None.
Proof.
  unfold AlertService.getAlertById, NotificationService.getAlert. by rewrite !fmap_None.
Qed.

Lemma getAlertById_Some s (alertId : string) alert :
  AlertService.getAlertById s alertId = Some alert ->
  exists a : AlertRow, a ∈ alerts s /\ row_alert a = alert /\
                       alert_id a = alertId /\ archived_at a = None.
Proof.
  unfold AlertService.getAlertById. intros (a & Hfind & ->)%fmap_Some.
  apply find_alert_Some in Hfind as (Ha & Hid & Harch). by exists a.
Qed.

Lemma latest_None (ds : list NotificationDelivery) : latest ds = None <-> ds = [].
Proof.
  destruct ds as [|d ds]; simpl; [done |].
  destruct (latest ds); split; discriminate.
Qed.

Lemma latest_Some (ds : list NotificationDelivery) (T : Date) :
  latest ds = Some T ->
  (exists d, d ∈ ds /\ deliveredAt d = T) /\ (forall d, d ∈ ds -> deliveredAt d <= T).
Proof.
  revert T. induction ds as [|d ds IH]; intros T; simpl; [discriminate |].
  destruct (latest ds) as [t|] eqn:Hrest.
  - intros [= <-]. destruct (IH t eq_refl) as [(d' & Hd' & Ht) Hmax]. split.
    + destruct (Z.max_spec (deliveredAt d) t) as [[_ ->] | [_ ->]].
      * exists d'. split; [by right | done].
      * exists d. split; [left | done].
    + intros x [-> | Hx]%elem_of_cons; [lia |]. specialize (Hmax x Hx). lia.
  - intros [= <-]. apply latest_None in Hrest as ->. split.
    + exists d. split; [left | done].
    + intros x [-> | Hx]%elem_of_cons; [lia | by apply elem_of_nil in Hx].
Qed.

Lemma elem_of_deliveries_of (alertId userId : string) (ds : list NotificationDelivery)
    (d : NotificationDelivery) :
  d ∈ deliveries_of alertId userId ds <->
  d ∈ ds /\ deliv_alertId d = alertId /\ deliv_userId d = userId.
Proof.
  unfold deliveries_of. rewrite elem_of_List_filter, andb_true_iff, !String.eqb_eq. tauto.
Qed.

(** X8: [getLastDeliveryTime] is absent exactly when the pair has no delivery
    row; otherwise it is the [deliveredAt] of one of the pair's rows and no
    row of the pair is later, whatever the channel and the status. *)
Theorem getLastDeliveryTime_latest s (alertId userId : string) :
  (NotificationService.getLastDeliveryTime s alertId userId = None <->
     forall d, d ∈ notification_deliveries s ->
               ~ (deliv_alertId d = alertId /\ deliv_userId d = userId)) /\
  (forall T,
     NotificationService.getLastDeliveryTime s alertId userId = Some T ->
     (exists d, d ∈ notification_deliveries s /\ deliv_alertId d = alertId /\
                deliv_userId d = userId /\ deliveredAt d = T) /\
     (forall d, d ∈ notification_deliveries s ->
                deliv_alertId d = alertId -> deliv_userId d = userId ->
                deliveredAt d <= T)).
Proof.
  unfold NotificationService.getLastDeliveryTime. split.
  - rewrite latest_None. split.
    + intros Hnil d Hd Hids.
      assert (Hin : d ∈ deliveries_of alertId userId (notification_deliveries s))
        by by apply elem_of_deliveries_of.
      rewrite Hnil in Hin. by apply elem_of_nil in Hin.
    + intros H.
      destruct (deliveries_of alertId userId (notification_deliveries s)) as [|d ds] eqn:Hds;
        [done |].
      assert (Hin : d ∈ deliveries_of alertId userId (notification_deliveries s))
        by (rewrite Hds; left).
      apply elem_of_deliveries_of in Hin as (Hd & Hids). by destruct (H d Hd).
  - intros T [(d & Hd & HT) Hmax]%latest_Some. split.
    + apply elem_of_deliveries_of in Hd as (Hd & Ha & Hu). by exists d.
    + intros x Hx Ha Hu. apply Hmax. by apply elem_of_deliveries_of.
Qed.

(** X9: [deliverAlert] fails with [AlertNotFound] exactly when no row of
    [alerts] has the id and a NULL [archived_at], so for a missing alert and
    for an archived one alike; in every other case it returns a store. *)
Theorem deliverAlert_not_found (enabledChannels : list NotificationChannelStrategy)
    now s (alertId : string) :
  (NotificationService.deliverAlert enabledChannels now s alertId
   = inl (AlertNotFound alertId) <->
   forall a : AlertRow, a ∈ alerts s -> alert_id a = alertId -> archived_at a <> None) /\
  ((exists s', NotificationService.deliverAlert enabledChannels now s alertId = inr s') <->
   exists a : AlertRow, a ∈ alerts s /\ alert_id a = alertId /\ archived_at a = None).
Proof.
  rewrite deliverAlert_unfold.
  destruct (NotificationService.getAlert s alertId) as [alert|] eqn:Hget.
  - apply getAlert_Some in Hget as (a & Ha & <- & Hid & Harch). split.
    + split; [discriminate |]. intros H. by destruct (H a Ha Hid).
    + split; [intros _; by exists a | eauto].
  - pose proof Hget as Hnone. rewrite getAlert_None in Hnone. split.
    + by split.
    + split; [intros (s' & [=]) |]. intros (a & Ha & Hid & Harch). by destruct (Hnone a Ha Hid).
Qed.

(** X10: [deliverAlert] delivers to no one. When an unarchived alert has the
    id, the call succeeds and returns the store as it was, whatever the
    visibility of the alert and whoever the users are: [getEligibleUsers] is
    given the row as [getAlert] returned it, on which [visibilityType] is
    [undefined], and answers with the empty list of its [default] branch. *)
Theorem deliverAlert_reaches_no_recipient (enabledChannels : list NotificationChannelStrategy)
    now s (a : AlertRow) :
  a ∈ alerts s ->
  archived_at a = None ->
  (exists alert, NotificationService.getAlert s (alert_id a) = Some alert /\
                 NotificationService.getEligibleUsers s alert = []) /\
  NotificationService.deliverAlert enabledChannels now s (alert_id a) = inr s.
Proof.
  intros Ha Harch. rewrite deliverAlert_unfold.
  destruct (NotificationService.getAlert s (alert_id a)) as [alert|] eqn:Hget.
  - split; [| done]. exists alert. split; [done |].
    apply getAlert_Some in Hget as (r & _ & <- & _). apply getEligibleUsers_rawAlert.
  - rewrite getAlert_None in Hget. by destruct (Hget a Ha eq_refl).
Qed.

End Lookups.

Lemma deliverAlert_reaches_no_recipient_witness :
  let alert := mkAlert "a1" "Outage" "Database down" CRITICAL "organization"
                 None None None true "u3" in
  let a := mkAlertRow alert None in
  let admin := mkUser "u3" "Admin" "admin@company.com" None ADMIN in
  let john := mkUser "u1" "John" "john@company.com" (Some "eng") USER in
  let s := mkStore [a] [admin; john] ∅ [] in
  NotificationService.getEligibleUsers s alert = [admin; john] /\
  NotificationService.deliverAlert serviceChannels 100 s "a1" = inr s.
Proof.
  intros alert a admin john s. split; [reflexivity |].
  apply (deliverAlert_reaches_no_recipient serviceChannels 100 s a);
    [apply list_elem_of_here | reflexivity].
Defined.

Section Candidates.

Implicit Types (now : Date) (s : Store) (user : User).

Lemma List_filter_ext {A : Type} (f g : A -> bool) (l : list A) :
  (forall x, f x = g x) -> List.filter f l = List.filter g l.
Proof.
  intros Hext. induction l as [|x l IH]; simpl; [done |]. by rewrite Hext, IH.
Qed.

Lemma getEligibleUsers_visible_to s (alert : Alert) :
  NotificationService.getEligibleUsers s alert
  = List.filter (NotificationService.visible_to alert) (users s).
Proof.
  unfold NotificationService.getEligibleUsers, NotificationService.visible_to.
  destruct (String.eqb (visibilityType alert) "organization") eqn:Horg.
  - apply List_filter_ext. intros u. by destruct (role u).
  - destruct (String.eqb (visibilityType alert) "team") eqn:Hteam.
    + apply String.eqb_eq in Hteam. rewrite Hteam. simpl.
      apply List_filter_ext. intros u. by rewrite orb_false_r.
    + destruct (String.eqb (visibilityType alert) "user") eqn:Huser; simpl.
      * done.
      * symmetry. by apply filter_none.
Qed.

Lemma join_on_primary_key (als : list AlertRow) (a : AlertRow) (f : AlertRow -> bool) :
  NoDup ((fun r : AlertRow => alert_id r) <$> als) ->
  a ∈ als ->
  existsb (fun r : AlertRow => String.eqb (alert_id r) (alert_id a) && f r) als = f a.
Proof.
  intros Hnd Ha. destruct (f a) eqn:Hfa.
  - apply existsb_exists. exists a.
    split; [by apply list_elem_of_In | by rewrite String.eqb_refl].
  - destruct (existsb _ als) eqn:Hex; [| done].
    apply existsb_exists in Hex as (r & Hr & Hhit).
    apply list_elem_of_In in Hr. apply andb_true_iff in Hhit as [Hid Hfr].
    apply String.eqb_eq in Hid.
    assert (r = a); [| congruence].
    clear Hfa Hfr. induction als as [|x als IH]; [by apply elem_of_nil in Ha |].
    rewrite fmap_cons in Hnd. apply NoDup_cons in Hnd as [Hx Hnd].
    apply elem_of_cons in Ha as [-> | Ha], Hr as [-> | Hr]; try done.
    + destruct Hx. rewrite <- Hid. by apply (list_elem_of_fmap_2 (fun r : AlertRow => alert_id r)).
    + destruct Hx. rewrite Hid. by apply (list_elem_of_fmap_2 (fun r : AlertRow => alert_id r)).
    + by apply IH.
Qed.

Lemma unread_unsnoozed_true now (row : option UserAlertPreference) :
  NotificationService.unread_unsnoozed now row = true <->
  forall p, row = Some p ->
            isRead p = false /\
            forall su, snoozedUntil p = Some su -> utcDate su < utcDate now.
Proof.
  destruct row as [p|]; simpl; [| by split].
  rewrite andb_true_iff, negb_true_iff. split.
  - intros [Hread Hsn] p' [= <-]. split; [done |].
    intros su Hsu. rewrite Hsu in Hsn. by apply Z.ltb_lt.
  - intros H. destruct (H p eq_refl) as [Hread Hsn]. split; [done |].
    destruct (snoozedUntil p) as [su|]; [| done]. apply Z.ltb_lt. by apply Hsn.
Qed.

(** X11: on the columns of an alert, the two visibility rules, the [switch]
    of [getEligibleUsers] and the disjunction in the join of
    [getUsersNeedingReminders], select the same users. The candidates of a
    reminder pass are, as a set, the users [getEligibleUsers] selects that
    have no preference row for the alert, or an unread row whose snooze, if
    any, ended on a date before the date of [now]: a snooze that ended
    earlier on the day of [now] still keeps the user out. The ids of
    [alerts] are its primary key. *)
Theorem candidates_are_eligible now s (a : AlertRow) :
  NoDup ((fun r : AlertRow => alert_id r) <$> alerts s) ->
  a ∈ alerts s ->
  forall u,
    u ∈ NotificationService.getUsersNeedingReminders now s (alert_id a) <->
    u ∈ NotificationService.getEligibleUsers s a /\
    forall p,
      NotificationService.getUserAlertPreference s (user_id u) (alert_id a) = Some p ->
      isRead p = false /\
      forall su, snoozedUntil p = Some su -> utcDate su < utcDate now.
Proof.
  intros Hnd Ha u.
  rewrite getEligibleUsers_visible_to.
  unfold NotificationService.getUsersNeedingReminders,
    NotificationService.getUserAlertPreference.
  rewrite !elem_of_List_filter, andb_true_iff, unread_unsnoozed_true.
  rewrite (join_on_primary_key (alerts s) a (fun r => NotificationService.visible_to r u))
    by done.
  tauto.
Qed.

Lemma candidates_are_eligible_witness :
  let alert := mkAlert "a1" "Outage" "Database down" CRITICAL "team"
                 (Some "eng") None None true "u3" in
  let a := mkAlertRow alert None in
  let john := mkUser "u1" "John" "john@company.com" (Some "eng") USER in
  let jane := mkUser "u2" "Jane" "jane@company.com" (Some "ops") USER in
  let mary := mkUser "u4" "Mary" "mary@company.com" (Some "eng") USER in
  let s := NotificationService.snoozeAlert 0
             (mkStore [a] [john; jane; mary] ∅ []) "u4" "a1" 1 in
  NotificationService.getEligibleUsers s a = [john; mary] /\
  john ∈ NotificationService.getUsersNeedingReminders 7200000 s "a1" /\
  ~ (mary ∈ NotificationService.getUsersNeedingReminders 7200000 s "a1") /\
  mary ∈ NotificationService.getUsersNeedingReminders 86400000 s "a1".
Proof.
  intros alert a john jane mary s.
  assert (Hnd : NoDup ((fun r : AlertRow => alert_id r) <$> alerts s))
    by apply NoDup_singleton.
  assert (Ha : a ∈ alerts s) by (apply list_elem_of_singleton; reflexivity).
  split_and!.
  - reflexivity.
  - apply (candidates_are_eligible 7200000 s a Hnd Ha john). split.
    + apply list_elem_of_here.
    + intros p [=].
  - intros Hmary.
    apply (candidates_are_eligible 7200000 s a Hnd Ha mary) in Hmary as [_ Hrow].
    destruct (Hrow (mkPreference "u4" "a1" false (Some 3600000) 0) eq_refl) as [_ Hsn].
    specialize (Hsn 3600000 eq_refl). vm_compute in Hsn. discriminate Hsn.
  - apply (candidates_are_eligible 86400000 s a Hnd Ha mary). split.
    + apply list_elem_of_further, list_elem_of_here.
    + intros p [= <-]. split; [reflexivity |]. intros su [= <-]. reflexivity.
Defined.

End Candidates.

(** * Further properties of reminder passes *)

Section StablePairs.

Variable enabledChannels : list NotificationChannelStrategy.
Variable REMINDER_INTERVAL_MINUTES : Z.

Implicit Types (now : Date) (s : Store) (alert : Alert) (user : User).
Implicit Types (userId alertId : string).

(** X12: a reminder pass adds no delivery row and writes no preference row
    for an alert id all of whose rows fail a condition of
    [getActiveAlertsWithReminders]: reminders disabled, archived, start time
    after [now], or expiry time at or before [now]. *)
Theorem inactive_alert_not_reminded now s userId alertId :
  (forall a : AlertRow, a ∈ alerts s -> alert_id a = alertId -> inactive now a) ->
  view userId alertId
    (NotificationService.processReminders enabledChannels REMINDER_INTERVAL_MINUTES now s)
  = view userId alertId s.
Proof. intros _. by rewrite processReminders_idle. Qed.

(** X13: a snooze does not stop [deliverToUser]. The preference the engine
    is handed is the row as the query returned it, on which [snoozedUntil]
    is [undefined]: the manager's answer is the window test of the [Active]
    handler, and the rows a call records are the same whether the recipient
    has just snoozed the alert or not. *)
Theorem deliverToUser_ignores_snooze now (t0 : Date) (hours : Z) s alert user :
  let s1 := NotificationService.snoozeAlert t0 s (user_id user) (alert_id alert) hours in
  AlertStateManager.canDeliver now alert user
    (rawPreference <$>
       NotificationService.getUserAlertPreference s1 (user_id user) (alert_id alert))
  = ActiveAlertState.canDeliver now alert user /\
  notification_deliveries (NotificationService.deliverToUser enabledChannels now s1 alert user)
  = notification_deliveries (NotificationService.deliverToUser enabledChannels now s alert user).
Proof.
  intros s1. split; [apply canDeliver_rawPreference |].
  rewrite !deliverToUser_unfold.
  destruct (ActiveAlertState.canDeliver now alert user); [| done]. simpl.
  destruct (forallb _ enabledChannels); [| done].
  unfold NotificationService.ensureUserAlertPreference. simpl.
  by repeat case_match.
Qed.

(** X16: with a positive interval, a pair that has no delivery row gets none
    from any sequence of reminder passes, even with an unread preference row
    and after a snooze has ended: with no last delivery the next reminder
    time is counted from [now], so it is never reached. *)
Theorem no_reminder_without_delivery (ticks : list Date) s userId alertId :
  0 < REMINDER_INTERVAL_MINUTES ->
  NotificationService.getLastDeliveryTime s alertId userId = None ->
  view userId alertId (scheduler_ticks enabledChannels REMINDER_INTERVAL_MINUTES ticks s)
  = view userId alertId s.
Proof. intros _ _. by rewrite scheduler_ticks_idle. Qed.

End StablePairs.

Lemma inactive_alert_not_reminded_witness :
  let alert := mkAlert "a1" "Outage" "Database down" CRITICAL "organization"
                 None None (Some 7200000) true "u3" in
  let user := mkUser "u1" "John" "john@company.com" None USER in
  let s := mkStore [mkAlertRow alert None] [user]
             {[ ("u1", "a1") := mkPreference "u1" "a1" false None 0 ]}
             [mkDelivery "a1" "u1" "in_app" 0 DELIVERED None] in
  view "u1" "a1" (NotificationService.processReminders serviceChannels 120 7200000 s)
  = view "u1" "a1" s.
Proof.
  intros alert user s.
  apply (inactive_alert_not_reminded serviceChannels 120 7200000 s "u1" "a1").
  intros a ->%list_elem_of_singleton _.
  right. right. right. exists 7200000. split; [reflexivity | lia].
Defined.

Lemma no_reminder_without_delivery_witness :
  let alert := mkAlert "A" "Outage" "Database down" CRITICAL "organization"
                 None None None true "u3" in
  let user := mkUser "u1" "John" "john@company.com" None USER in
  let s := NotificationService.snoozeAlert 0
             (mkStore [mkAlertRow alert None] [user] ∅ []) "u1" "A" 1 in
  NotificationService.getUsersNeedingReminders 86400000 s "A" = [user] /\
  view "u1" "A" (scheduler_ticks serviceChannels 120 [86400000; 93600000; 100800000] s)
  = view "u1" "A" s.
Proof.
  intros alert user s. split; [reflexivity |].
  apply (no_reminder_without_delivery serviceChannels 120
           [86400000; 93600000; 100800000] s "u1" "A");
    [lia | reflexivity].
Defined.

(** * Properties of the alert service *)

Section Archive.

Variable enabledChannels : list NotificationChannelStrategy.
Variable REMINDER_INTERVAL_MINUTES : Z.

Implicit Types (now : Date) (s : Store).




(** X18: once [archiveAlert] has run for an alert id, no sequence of
    reminder passes adds a delivery row or writes a preference row for that
    alert, for any recipient. *)
Theorem archived_not_reminded now (ticks : list Date) s
    (userId alertId archivedBy : string) :
  let s' := (AlertService.archiveAlert now s alertId archivedBy).2 in
  view userId alertId (scheduler_ticks enabledChannels REMINDER_INTERVAL_MINUTES ticks s')
  = view userId alertId s'.
Proof. intros s'. by rewrite scheduler_ticks_idle. Qed.

End Archive.

Section Create.

Variable enabledChannels : list NotificationChannelStrategy.
Variable REMINDER_INTERVAL_MINUTES : Z.

Implicit Types (now : Date) (s : Store) (request : CreateAlertRequest).

Lemma insertAlert_Some s (alert : Alert) s1 :
  AlertService.insertAlert s alert = Some s1 ->
  s1 = mkStore (alerts s ++ [mkAlertRow alert None]) (users s)
         (user_alert_preferences s) (notification_deliveries s).
Proof.
  intros Hins. unfold AlertService.insertAlert in Hins. by case_match; simplify_eq.
Qed.

(** What [createAlert] returns when it returns. *)
Lemma createAlert_Some (alertId : string) now s request (createdBy : string)
    (alert : Alert) s' :
  AlertService.createAlert enabledChannels alertId now s request createdBy
  = inr (alert, s') ->
  alert = requested alertId request createdBy /\
  s' = mkStore (alerts s ++ [mkAlertRow alert None]) (users s)
         (user_alert_preferences s) (notification_deliveries s).
Proof.
  unfold AlertService.createAlert.
  fold (requested alertId request createdBy).
  destruct (AlertService.insertAlert s (requested alertId request createdBy))
    as [s1|] eqn:Hins; [| discriminate].
  apply insertAlert_Some in Hins as ->.
  destruct (match startTime (requested alertId request createdBy) with
            | Some st => st <=? now | None => true end).
  - rewrite deliverAlert_unfold.
    destruct (NotificationService.getAlert _ _); [| discriminate].
    by intros [= <- <-].
  - by intros [= <- <-].
Qed.

(** X20: an alert created with a start time after [now] is stored and not
    delivered: [createAlert] writes no delivery row and no preference row.
    Nor do the reminder passes deliver it later, before or after its start
    time, to a recipient who has no preference row for it. *)
Theorem createAlert_deferred (alertId : string) now s request (createdBy : string)
    (st : Date) (alert : Alert) s1 :
  req_startTime request = Some st ->
  now < st ->
  AlertService.createAlert enabledChannels alertId now s request createdBy
  = inr (alert, s1) ->
  alerts s1 = alerts s ++ [mkAlertRow alert None] /\
  notification_deliveries s1 = notification_deliveries s /\
  user_alert_preferences s1 = user_alert_preferences s /\
  forall (ticks : list Date) (userId : string),
    NotificationService.getUserAlertPreference s userId alertId = None ->
    deliveries_of alertId userId
      (notification_deliveries
         (scheduler_ticks enabledChannels REMINDER_INTERVAL_MINUTES ticks s1))
    = deliveries_of alertId userId (notification_deliveries s).
Proof.
  intros _ _ [_ ->]%createAlert_Some. split_and!; try done.
  intros ticks userId _. by rewrite scheduler_ticks_idle.
Qed.

(** X21: [createAlert] notifies no one. Whatever the start time of the
    request, when the call returns the store has the new row of [alerts] and
    nothing else has changed: no delivery row and no preference row. For an
    alert that starts at once [deliverAlert] is called, and reaches no
    recipient. *)
Theorem createAlert_notifies_no_one (alertId : string) now s request (createdBy : string)
    (alert : Alert) s' :
  AlertService.createAlert enabledChannels alertId now s request createdBy
  = inr (alert, s') ->
  alert = requested alertId request createdBy /\
  alerts s' = alerts s ++ [mkAlertRow alert None] /\
  users s' = users s /\
  user_alert_preferences s' = user_alert_preferences s /\
  notification_deliveries s' = notification_deliveries s.
Proof.
  by intros [-> ->]%createAlert_Some.
Qed.

End Create.

Lemma createAlert_deferred_witness :
  let admin := mkUser "u3" "Admin" "admin@company.com" None ADMIN in
  let john := mkUser "u1" "John" "john@company.com" None USER in
  let s := mkStore [] [admin; john] ∅ [] in
  let request := mkCreateAlertRequest "Maintenance" "Tonight" INFO "organization"
                   None (Some 5000) None None in
  let alert := requested "A" request "u3" in
  let s1 := mkStore [mkAlertRow alert None] [admin; john] ∅ [] in
  AlertService.createAlert serviceChannels "A" 1000 s request "u3" = inr (alert, s1) /\
  forall (ticks : list Date) (userId : string),
    NotificationService.getUserAlertPreference s userId "A" = None ->
    deliveries_of "A" userId
      (notification_deliveries (scheduler_ticks serviceChannels 120 ticks s1))
    = deliveries_of "A" userId (notification_deliveries s).
Proof.
  intros admin john s request alert s1. split; [reflexivity |].
  apply (createAlert_deferred serviceChannels 120 "A" 1000 s request "u3" 5000 alert s1);
    [reflexivity | lia | reflexivity].
Defined.

Lemma createAlert_notifies_no_one_witness :
  let admin := mkUser "u3" "Admin" "admin@company.com" None ADMIN in
  let john := mkUser "u1" "John" "john@company.com" None USER in
  let s := mkStore [] [admin; john] ∅ [] in
  let request := mkCreateAlertRequest "Maintenance" "Tonight" INFO "organization"
                   None None None None in
  let alert := requested "A" request "u3" in
  exists s',
    AlertService.createAlert serviceChannels "A" 1000 s request "u3" = inr (alert, s') /\
    NotificationService.getEligibleUsers s' alert = [admin; john] /\
    notification_deliveries s' = [] /\
    user_alert_preferences s' = ∅.
Proof.
  intros admin john s request alert. eexists. split; [reflexivity |].
  split; [reflexivity |].
  destruct (createAlert_notifies_no_one serviceChannels "A" 1000 s request "u3" alert _
              eq_refl) as (_ & _ & _ & Hprefs & Hlog).
  by split.
Defined.

(** * Properties of the controllers *)

Section Controllers.

Implicit Types (now : Date) (s : Store) (req : AuthRequest).

(** The values of [hours] the snooze endpoint accepts, and what each gives. *)
Lemma validHours_Some (hours : JsValue) (h : Z) :
  UserController.validHours hours = Some h <->
  (hours = JsUndefined /\ h = 24) \/ (hours = JsNumber h /\ 1 <= h <= 168).
Proof.
  destruct hours as [| n |]; simpl.
  - split; [intros [= <-]; by left | intros [[_ ->] | [[=] _]]; done].
  - destruct (Z.ltb_spec n 1); simpl.
    { split; [discriminate | intros [[[=] _] | [[= ->] ?]]; lia]. }
    destruct (Z.gtb_spec n 168).
    { split; [discriminate | intros [[[=] _] | [[= ->] ?]]; lia]. }
    split; [intros [= <-]; right; split; [done | lia] |].
    by intros [[[=] _] | [[= ->] _]].
  - split; [discriminate | intros [[[=] _] | [[=] _]]].
Qed.

Lemma validHours_None (hours : JsValue) :
  UserController.validHours hours = None <->
  hours = JsNotANumber \/ exists n, hours = JsNumber n /\ (n < 1 \/ 168 < n).
Proof.
  destruct hours as [| n |]; simpl.
  - split; [discriminate | intros [[=] | (n & [=] & _)]].
  - destruct (Z.ltb_spec n 1); simpl.
    { split; [intros _; right; exists n; split; [done | lia] | done]. }
    destruct (Z.gtb_spec n 168).
    { split; [intros _; right; exists n; split; [done | lia] | done]. }
    split; [discriminate | intros [[=] | (n' & [= <-] & ?)]; lia].
  - split; [by left | done].
Qed.

(** X22: the snooze endpoint answers 401, 404, 400 or 200, checked in that
    order: 401 exactly when the request has no user; 404 exactly when it has
    one and no unarchived alert has the id; 400 exactly when both are there
    and [hours] is not a number or is a number below 1 or above 168; 200
    exactly when both are there and [hours] is absent or a number from 1 to
    168. It writes nothing unless it answers 200. When it does, the store is
    the one [snoozeAlert] leaves for the hours of the body, 24 when the body
    has none: the row of the pair carries [snoozedUntil] that many hours
    after [now] and the [isRead] the row had, unread when there was no row,
    and the body of the answer reports the same instant and hours. *)
Theorem snooze_endpoint now s req :
  let res := (UserController.snoozeAlert now s req).1 in
  let s' := (UserController.snoozeAlert now s req).2 in
  (statusCode res = 401 <-> req_user req = None) /\
  (statusCode res = 404 <->
     req_user req <> None /\ NotificationService.getAlert s (params_id req) = None) /\
  (statusCode res = 400 <->
     req_user req <> None /\ NotificationService.getAlert s (params_id req) <> None /\
     (body_hours req = JsNotANumber \/
      exists n, body_hours req = JsNumber n /\ (n < 1 \/ 168 < n))) /\
  (statusCode res = 200 <->
     req_user req <> None /\ NotificationService.getAlert s (params_id req) <> None /\
     (body_hours req = JsUndefined \/
      exists n, body_hours req = JsNumber n /\ 1 <= n <= 168)) /\
  (statusCode res = 401 \/ statusCode res = 404 \/ statusCode res = 400
   \/ statusCode res = 200) /\
  (statusCode res <> 200 -> s' = s) /\
  (forall user, req_user req = Some user -> statusCode res = 200 ->
     let hours := match body_hours req with JsNumber n => n | _ => 24 end in
     1 <= hours <= 168 /\
     s' = NotificationService.snoozeAlert now s (user_id user) (params_id req) hours /\
     responseBody res
     = SnoozedBody (params_id req) (user_id user) (now + hours * 60 * 60 * 1000) hours /\
     exists p,
       NotificationService.getUserAlertPreference s' (user_id user) (params_id req) = Some p /\
       snoozedUntil p = Some (now + hours * 60 * 60 * 1000) /\
       isRead p
       = match NotificationService.getUserAlertPreference s (user_id user) (params_id req) with
         | Some p0 => isRead p0
         | None => false
         end).
Proof.
  unfold UserController.snoozeAlert.
  pose proof (getAlertById_None s (params_id req)) as Hsame.
  destruct (req_user req) as [user|]; simpl.
  2: { split_and!.
       - done.
       - split; [discriminate | by intros [? _]].
       - split; [discriminate | by intros [? _]].
       - split; [discriminate | by intros [? _]].
       - by left.
       - done.
       - discriminate. }
  destruct (AlertService.getAlertById s (params_id req)) as [alert|] eqn:Hget; simpl.
  2: { assert (Hnone : NotificationService.getAlert s (params_id req) = None)
         by by apply Hsame.
       split_and!.
       - split; discriminate.
       - by split.
       - split; [discriminate | by intros (_ & ? & _)].
       - split; [discriminate | by intros (_ & ? & _)].
       - right. by left.
       - done.
       - discriminate. }
  assert (Hfound : NotificationService.getAlert s (params_id req) <> None).
  { intros Hnone. apply Hsame in Hnone. discriminate. }
  pose proof (validHours_None (body_hours req)) as HNone.
  pose proof (validHours_Some (body_hours req)) as HSome.
  destruct (UserController.validHours (body_hours req)) as [h|] eqn:Hvalid; simpl.
  2: { destruct HNone as [HNone _]. specialize (HNone eq_refl).
       split_and!.
       - split; discriminate.
       - split; [discriminate | by intros [_ ?]].
       - split; [by intros _ | done].
       - split; [discriminate |]. intros (_ & _ & [Hu | (n & Hn & Hb)]).
         + destruct HNone as [? | (n & ? & _)]; congruence.
         + destruct HNone as [? | (n' & ? & ?)]; [congruence |].
           assert (n' = n) by congruence. subst n'. lia.
       - right. right. by left.
       - done.
       - discriminate. }
  destruct (HSome h) as [HSome' _]. specialize (HSome' eq_refl).
  split_and!.
  - split; discriminate.
  - split; [discriminate | by intros [_ ?]].
  - split; [discriminate |]. intros (_ & _ & [Hnan | (n & Hn & Hb)]).
    + destruct HSome' as [[? _] | [? _]]; congruence.
    + destruct HSome' as [[? _] | [? ?]]; [congruence |].
      assert (n = h) by congruence. subst n. lia.
  - split; [intros _ | done]. split_and!; [done | done |].
    destruct HSome' as [[? _] | [? ?]]; [by left | right; by exists h].
  - by repeat right.
  - done.
  - intros user' [= <-] _.
    assert (Hh : match body_hours req with JsNumber n => n | _ => 24 end = h).
    { destruct HSome' as [[-> ->] | [-> _]]; done. }
    cbv zeta. rewrite Hh.
    assert (1 <= h <= 168) by (destruct HSome' as [[_ ->] | [_ ?]]; lia).
    split_and!; [lia | lia | done | done |].
    unfold NotificationService.getUserAlertPreference, NotificationService.snoozeAlert.
    simpl. eexists. split; [apply lookup_insert_eq |]. by split.
Qed.

(** X23: the read endpoint checks that the user is authenticated and that an
    unarchived alert has the id, and nothing about the alert's visibility:
    for every authenticated user and every such alert it answers 200 and the
    alert is read by the user afterwards. It writes nothing when it answers
    401 or 404. *)
Theorem read_endpoint now s req :
  let res := (UserController.markAlertAsRead now s req).1 in
  let s' := (UserController.markAlertAsRead now s req).2 in
  (statusCode res = 200 <->
     req_user req <> None /\
     exists a : AlertRow, a ∈ alerts s /\ alert_id a = params_id req /\ archived_at a = None) /\
  (statusCode res <> 200 -> s' = s) /\
  (forall user, req_user req = Some user -> statusCode res = 200 ->
                readBy s' (user_id user) (params_id req)).
Proof.
  unfold UserController.markAlertAsRead.
  destruct (req_user req) as [user|]; simpl.
  2: { split_and!; [split; [done | by intros [? _]] | done | done]. }
  destruct (AlertService.getAlertById s (params_id req)) as [alert|] eqn:Hget; simpl.
  - apply getAlertById_Some in Hget as (a & Ha & <- & Hid & Harch). split_and!.
    + split; [intros _; split; [done | by exists a] | intros _; reflexivity].
    + done.
    + intros user' [= <-] _. eexists. split; [apply lookup_insert_eq | done].
  - rewrite getAlertById_None, getAlert_None in Hget. split_and!; [| done | done].
    split; [done |]. intros [_ (a & Ha & Hid & Harch)]. by destruct (Hget a Ha Hid).
Qed.

(** X24: the manual delivery endpoint answers 404 exactly when no unarchived
    alert has the id, and then writes nothing; otherwise it answers 200 with
    the store [deliverAlert] returns. The failure answer 500 never occurs:
    the alert the endpoint has just found is found again by [deliverAlert]. *)
Theorem trigger_endpoint (enabledChannels : list NotificationChannelStrategy) now s req :
  let res := (AdminController.triggerAlertDelivery enabledChannels now s req).1 in
  let s' := (AdminController.triggerAlertDelivery enabledChannels now s req).2 in
  (statusCode res = 404 <-> NotificationService.getAlert s (params_id req) = None) /\
  (statusCode res = 404 -> s' = s) /\
  (statusCode res = 404 \/
   statusCode res = 200 /\
   NotificationService.deliverAlert enabledChannels now s (params_id req) = inr s').
Proof.
  unfold AdminController.triggerAlertDelivery.
  pose proof (getAlertById_None s (params_id req)) as Hsame.
  destruct (AlertService.getAlertById s (params_id req)) as [alert|] eqn:Hget; simpl.
  2: { split_and!; [split; [intros _; by apply Hsame | done] | done | by left]. }
  rewrite deliverAlert_unfold.
  destruct (NotificationService.getAlert s (params_id req)) as [raw|] eqn:Hraw; simpl.
  - split_and!; [done | done | by right].
  - destruct Hsame as [_ Hsame]. by specialize (Hsame eq_refl).
Qed.

End Controllers.

Lemma snooze_endpoint_witness :
  let alert := mkAlert "a1" "Outage" "Database down" CRITICAL "organization"
                 None None None true "u3" in
  let john := mkUser "u1" "John" "john@company.com" None USER in
  let s := mkStore [mkAlertRow alert None] [john]
             {[ ("u1", "a1") := mkPreference "u1" "a1" true None 0 ]} [] in
  let req := mkRequest (Some john) "a1" (JsNumber 2) in
  let res := (UserController.snoozeAlert 1000 s req).1 in
  let s' := (UserController.snoozeAlert 1000 s req).2 in
  statusCode res = 200 /\
  NotificationService.getUserAlertPreference s' "u1" "a1"
  = Some (mkPreference "u1" "a1" true (Some 7201000) 1000) /\
  statusCode (UserController.snoozeAlert 1000 s (mkRequest (Some john) "a1" (JsNumber 0))).1
  = 400.
Proof.
  intros alert john s req res s'.
  destruct (snooze_endpoint 1000 s req) as (_ & _ & _ & H200 & _ & _ & Hrow).
  assert (Hok : statusCode res = 200).
  { apply H200. split_and!; [done | done |]. right. exists 2. split; [done | lia]. }
  destruct (Hrow john eq_refl Hok) as (_ & Hs' & _).
  split_and!; [exact Hok | | ].
  - fold s' in Hs'. rewrite Hs'. reflexivity.
  - apply (snooze_endpoint 1000 s (mkRequest (Some john) "a1" (JsNumber 0))).
    split_and!; [done | done |]. right. exists 0. split; [done | lia].
Defined.

(** * Properties of the scheduler and of the channel factory *)

Section SchedulerInvariant.

Lemma armed_app (es es' : list SchedulerEvent) :
  Scheduler.armed (es ++ es') = (Scheduler.armed es + Scheduler.armed es')%nat.
Proof. unfold Scheduler.armed. by rewrite List.filter_app, length_app. Qed.

Lemma cleared_app (es es' : list SchedulerEvent) :
  Scheduler.cleared (es ++ es') = (Scheduler.cleared es + Scheduler.cleared es')%nat.
Proof. unfold Scheduler.cleared. by rewrite List.filter_app, length_app. Qed.

Lemma run_invariant (cs : list Scheduler.Command) (sch : ReminderScheduler) :
  (isRunning sch = true <-> is_Some (intervalId sch)) ->
  let sch' := (Scheduler.run cs sch).1 in
  let events := (Scheduler.run cs sch).2 in
  (isRunning sch' = true <-> is_Some (intervalId sch')) /\
  (Scheduler.armed events + (if isRunning sch then 1 else 0)
   = Scheduler.cleared events + (if isRunning sch' then 1 else 0))%nat.
Proof.
  revert sch. induction cs as [|c cs IH]; intros sch Hinv; simpl.
  { split; [done | destruct (isRunning sch); done]. }
  destruct (Scheduler.call c sch) as [sch1 events1] eqn:Hcall.
  assert (Hstep : (isRunning sch1 = true <-> is_Some (intervalId sch1)) /\
                  (Scheduler.armed events1 + (if isRunning sch then 1 else 0)
                   = Scheduler.cleared events1 + (if isRunning sch1 then 1 else 0))%nat).
  { destruct c as [m|]; simpl in Hcall.
    - unfold Scheduler.start in Hcall.
      destruct (isRunning sch) eqn:Hrun; injection Hcall as <- <-.
      + by rewrite Hrun.
      + simpl. split; [by split | done].
    - unfold Scheduler.stop in Hcall.
      destruct (isRunning sch) eqn:Hrun; simpl in Hcall.
      + destruct (intervalId sch) as [t|] eqn:Htimer; injection Hcall as <- <-.
        * simpl. split; [| done]. split; [done | by intros [? ?]].
        * destruct Hinv as [Hinv _]. by destruct (Hinv eq_refl).
      + injection Hcall as <- <-. by rewrite Hrun. }
  destruct Hstep as [Hinv1 Hcount1].
  specialize (IH sch1 Hinv1).
  destruct (Scheduler.run cs sch1) as [sch2 events2]. simpl in *.
  destruct IH as [Hinv2 Hcount2]. split; [done |].
  rewrite armed_app, cleared_app. lia.
Qed.

(** X25: after any sequence of [start] and [stop] calls on a new scheduler,
    it is running exactly when it holds a timer, and the timers it has armed
    are the timers it has cleared plus the one it holds while running: a
    repeated [start] arms no second timer and a repeated [stop] clears
    nothing. *)
Theorem scheduler_holds_one_timer (cs : list Scheduler.Command) :
  let sch := (Scheduler.run cs Scheduler.initial).1 in
  let events := (Scheduler.run cs Scheduler.initial).2 in
  (isRunning sch = true <-> is_Some (intervalId sch)) /\
  Scheduler.armed events
  = (Scheduler.cleared events + (if isRunning sch then 1 else 0))%nat.
Proof.
  intros sch events.
  destruct (run_invariant cs Scheduler.initial) as [Hinv Hcount].
  { simpl. split; [done | by intros [? ?]]. }
  split; [exact Hinv |]. simpl in Hcount. fold sch events in Hcount. lia.
Qed.

End SchedulerInvariant.

Section Factory.

Variables InAppChannel EmailChannel SmsChannel : NotificationChannelStrategy.

Lemma construct_initialized (calls : nat) (r : NotificationChannelFactory.Registry) :
  NotificationChannelFactory.isInitialized r = true ->
  NotificationChannelFactory.construct InAppChannel EmailChannel SmsChannel calls r
  = (replicate calls (NotificationChannelFactory.channels r), r).
Proof.
  intros Hinit. induction calls as [|calls IH]; simpl; [done |].
  unfold NotificationChannelFactory.getEnabledChannels,
    NotificationChannelFactory.initializeChannels.
  rewrite Hinit. by rewrite IH.
Qed.

(** X26: however many services are constructed, each call of
    [getEnabledChannels] returns the same three channels in the order in-app,
    email, SMS: the first call fills the registry and the later ones add
    nothing to it. *)
Theorem getEnabledChannels_stable (calls : nat) :
  NotificationChannelFactory.construct InAppChannel EmailChannel SmsChannel (S calls)
    NotificationChannelFactory.initial
  = (replicate (S calls) [InAppChannel; EmailChannel; SmsChannel],
     NotificationChannelFactory.mkRegistry [InAppChannel; EmailChannel; SmsChannel] true).
Proof.
  simpl. by rewrite construct_initialized.
Qed.

End Factory.
